(** * FOXSI/PADRE GUI: the UART driver ([src/uart_driver.py])

    A shallow embedding of the [UART_Driver] class and the properties of its
    transport contract.  The driver is a thin layer over pyserial; pyserial,
    the operating system and the instrument behind the line are not part of
    the repository, so they appear here as an environment [SerialEnv] whose
    every call may return a value or raise.  Each driver method is a
    computation in a state-and-exception monad over

      - the environment's state (the "world"),
      - the attributes of the driver object ([self]),
      - the list objects of the Python heap,
      - the ordered list of library calls issued so far (a ghost trace),
      - the messages printed on standard output, one entry per call of
        [print].

    The module that serialises the exchanges on top of the driver is
    modelled at the end of the definitions, from the specification. *)

From Stdlib Require Import List ZArith QArith String Bool Lia PeanoNat.
Import ListNotations.

Set Implicit Arguments.

Local Open Scope string_scope.
Local Open Scope Z_scope.

(** ** Python values and exceptions *)

(** The arguments of the driver's methods are untyped in the source; the
    values that reach them are modelled by the shapes that matter to the
    code: only [str] concatenation in [open_conn]'s handler looks at one. *)
Inductive pyval : Type :=
| PyNone
| PyInt (z : Z)
| PyStr (s : string)
| PyBytes (b : list Byte.byte).

Inductive exn : Type :=
| AttributeError
| TypeError
| ValueError
| OSError
| SerialException
| PortNotOpenError
| SerialTimeoutException.

Inductive result (A : Type) : Type :=
| Ok (a : A)
| Raise (e : exn).
Arguments Ok {A} a.
Arguments Raise {A} e.

Definition raised {A : Type} (r : result A) : bool :=
  match r with Ok _ => false | Raise _ => true end.

(** ** The serial library as seen by the driver *)

(** [serial.PARITY_NONE], [serial.STOPBITS_ONE], [serial.EIGHTBITS] and their
    siblings. *)
Inductive Parity : Type :=
  PARITY_NONE | PARITY_EVEN | PARITY_ODD | PARITY_MARK | PARITY_SPACE.
Inductive StopBits : Type :=
  STOPBITS_ONE | STOPBITS_ONE_POINT_FIVE | STOPBITS_TWO.
Inductive ByteSize : Type :=
  FIVEBITS | SIXBITS | SEVENBITS | EIGHTBITS.

(** The values pyserial gives these constants. *)
Definition Parity_value (p : Parity) : string :=
  match p with
  | PARITY_NONE => "N" | PARITY_EVEN => "E" | PARITY_ODD => "O"
  | PARITY_MARK => "M" | PARITY_SPACE => "S"
  end.

Definition StopBits_value (b : StopBits) : Q :=
  match b with
  | STOPBITS_ONE => 1%Q | STOPBITS_ONE_POINT_FIVE => 1.5%Q
  | STOPBITS_TWO => 2%Q
  end.

Definition ByteSize_value (b : ByteSize) : Z :=
  match b with
  | FIVEBITS => 5 | SIXBITS => 6 | SEVENBITS => 7 | EIGHTBITS => 8
  end.

(** A [serial.Serial] object is a mutable object of the library; the driver
    only holds a reference to it. *)
Definition Serial : Type := nat.

(** An entry of [serial.tools.list_ports.comports()]. *)
Record ListPortInfo : Type := mkPortInfo {
  device : string;
  description : string;
  hwid : string
}.

(** One call of the driver into the library, with its arguments. *)
Inductive call : Type :=
| Call_comports
| Call_Serial (port : pyval) (baudrate : Z) (parity : Parity)
              (stopbits : StopBits) (bytesize : ByteSize) (timeout : Q)
| Call_close (c : Serial)
| Call_flushOutput (c : Serial)
| Call_flushInput (c : Serial)
| Call_write (c : Serial) (data : pyval)
| Call_read (c : Serial) (size : pyval)
| Call_inWaiting (c : Serial).

(** The environment: every entry point the driver uses, as a transition on
    the world that returns or raises.  [env_read] returning fewer bytes than
    asked is pyserial's read timeout; [env_is_open] is the library's
    [is_open] flag of a [Serial] object. *)
Record SerialEnv (W : Type) : Type := mkEnv {
  env_comports : W -> W * result (list ListPortInfo);
  env_Serial : pyval -> Z -> Parity -> StopBits -> ByteSize -> Q ->
               W -> W * result Serial;
  env_close : Serial -> W -> W * result unit;
  env_flushOutput : Serial -> W -> W * result unit;
  env_flushInput : Serial -> W -> W * result unit;
  env_write : Serial -> pyval -> W -> W * result Z;
  env_read : Serial -> pyval -> W -> W * result (list Byte.byte);
  env_inWaiting : Serial -> W -> W * result Z;
  env_is_open : Serial -> W -> bool
}.

(** ** The driver object and the machine state *)

(** A Python [list] is a mutable object: an attribute, a local or a caller
    holds a reference to it, and every holder sees what another appends. *)
Definition list_ref : Type := nat.

(** The attributes of a [UART_Driver] instance; [None] is an attribute that
    was never assigned (reading it raises [AttributeError]). *)
Record UART_Driver : Type := mkDriver {
  comm_ports_list : option list_ref;
  conn : option Serial
}.

Definition blank_object : UART_Driver :=
  {| comm_ports_list := None; conn := None |}.

(** [heap] gives the content of every list object, [fresh] is the next
    reference to hand out. *)
Record Sys (W : Type) : Type := mkSys {
  world : W;
  self : UART_Driver;
  heap : list_ref -> list string;
  fresh : list_ref;
  trace : list call;
  stdout : list string
}.

(** ** The monad: state, and exceptions that keep the state *)

Definition M (W A : Type) : Type := Sys W -> result A * Sys W.

Definition ret {W A : Type} (a : A) : M W A := fun s => (Ok a, s).

Definition raise {W A : Type} (e : exn) : M W A := fun s => (Raise e, s).

Definition bind {W A B : Type} (m : M W A) (k : A -> M W B) : M W B :=
  fun s =>
    match m s with
    | (Ok a, s') => k a s'
    | (Raise e, s') => (Raise e, s')
    end.

(** [try: body / except: handler] with a bare [except], which catches every
    exception; an exception raised by the handler itself propagates. *)
Definition try_except {W A : Type} (body handler : M W A) : M W A :=
  fun s =>
    match body s with
    | (Ok a, s') => (Ok a, s')
    | (Raise _, s') => handler s'
    end.

Declare Scope py_scope.
Delimit Scope py_scope with py.
Notation "x <- m ;; k" := (bind m (fun x => k))
  (at level 100, m at next level, right associativity) : py_scope.
Notation "m ;;; k" := (bind m (fun _ => k))
  (at level 100, right associativity) : py_scope.
Local Open Scope py_scope.

(** The state after a message was printed (one entry of [stdout] per call
    of [print], whatever the message holds), and after a library call moved
    the world to [w']. *)
Definition printed {W : Type} (msg : string) (s : Sys W) : Sys W :=
  {| world := world s; self := self s; heap := heap s; fresh := fresh s;
     trace := trace s; stdout := (stdout s ++ [msg])%list |}.

Definition moved {W : Type} (w' : W) (c : call) (s : Sys W) : Sys W :=
  {| world := w'; self := self s; heap := heap s; fresh := fresh s;
     trace := (trace s ++ [c])%list; stdout := stdout s |}.

Definition set_world {W : Type} (w' : W) (s : Sys W) : Sys W :=
  {| world := w'; self := self s; heap := heap s; fresh := fresh s;
     trace := trace s; stdout := stdout s |}.

(** [print(msg)]. *)
Definition print {W : Type} (msg : string) : M W unit :=
  fun s => (Ok tt, printed msg s).

(** [a + b] where [a] is a [str]: defined on [str] only. *)
Definition str_add (a : string) (b : pyval) : result string :=
  match b with
  | PyStr s => Ok (a ++ s)%string
  | _ => Raise TypeError
  end.

Definition lift_result {W A : Type} (r : result A) : M W A := fun s => (r, s).

(** Reading and writing the attributes of [self]. *)
Definition get_conn {W : Type} : M W Serial :=
  fun s =>
    match conn (self s) with
    | Some c => (Ok c, s)
    | None => (Raise AttributeError, s)
    end.

Definition set_self {W : Type} (o : UART_Driver) (s : Sys W) : Sys W :=
  {| world := world s; self := o; heap := heap s; fresh := fresh s;
     trace := trace s; stdout := stdout s |}.

Definition set_conn {W : Type} (c : Serial) : M W unit :=
  fun s => (Ok tt, set_self {| comm_ports_list := comm_ports_list (self s);
                               conn := Some c |} s).

Definition get_comm_ports_list {W : Type} : M W list_ref :=
  fun s =>
    match comm_ports_list (self s) with
    | Some r => (Ok r, s)
    | None => (Raise AttributeError, s)
    end.

Definition set_comm_ports_list {W : Type} (r : list_ref) : M W unit :=
  fun s => (Ok tt, set_self {| comm_ports_list := Some r;
                               conn := conn (self s) |} s).

(** The list display [[]]: a new, empty list object. *)
Definition new_list {W : Type} : M W list_ref :=
  fun s =>
    (Ok (fresh s),
     {| world := world s; self := self s;
        heap := fun r => if Nat.eqb r (fresh s) then [] else heap s r;
        fresh := S (fresh s); trace := trace s; stdout := stdout s |}).

(** [r.append(x)]: the object changes, for every holder of [r]. *)
Definition list_append {W : Type} (r : list_ref) (x : string) : M W unit :=
  fun s =>
    (Ok tt,
     {| world := world s; self := self s;
        heap := fun r' => if Nat.eqb r' r then (heap s r ++ [x])%list
                          else heap s r';
        fresh := fresh s; trace := trace s; stdout := stdout s |}).

(** A library call: the world moves, the call is recorded, and the outcome
    (value or exception) is handed to the caller. *)
Definition lib {W A : Type} (c : call) (f : W -> W * result A) : M W A :=
  fun s =>
    let (w', r) := f (world s) in
    (r, moved w' c s).

(** Iterating [bytes] yields the integers 0..255. *)
Definition byte_to_int (b : Byte.byte) : Z := Z.of_N (Byte.to_N b).

(** ** The methods of [UART_Driver] *)

Section Driver.

Variable W : Type.
Variable E : SerialEnv W.

Definition sp_comports : M W (list ListPortInfo) :=
  lib Call_comports (env_comports E).

Definition serial_Serial (port : pyval) (baudrate : Z) (parity : Parity)
    (stopbits : StopBits) (bytesize : ByteSize) (timeout : Q) : M W Serial :=
  lib (Call_Serial port baudrate parity stopbits bytesize timeout)
      (env_Serial E port baudrate parity stopbits bytesize timeout).

Definition Serial_close (c : Serial) : M W unit :=
  lib (Call_close c) (env_close E c).

Definition Serial_flushOutput (c : Serial) : M W unit :=
  lib (Call_flushOutput c) (env_flushOutput E c).

Definition Serial_flushInput (c : Serial) : M W unit :=
  lib (Call_flushInput c) (env_flushInput E c).

Definition Serial_write (c : Serial) (data : pyval) : M W Z :=
  lib (Call_write c data) (env_write E c data).

Definition Serial_read (c : Serial) (size : pyval) : M W (list Byte.byte) :=
  lib (Call_read c size) (env_read E c size).

Definition Serial_inWaiting (c : Serial) : M W Z :=
  lib (Call_inWaiting c) (env_inWaiting E c).

(** [for p in ports: self.comm_ports_list.append(p.device)] *)
Fixpoint append_devices (ports : list ListPortInfo) : M W unit :=
  match ports with
  | [] => ret tt
  | p :: rest =>
      r <- get_comm_ports_list ;;
      list_append r (device p) ;;;
      append_devices rest
  end.

(** [UART_Driver.__init__]: no [try] here, an exception of [comports()]
    reaches the caller. *)
Definition __init__ : M W unit :=
  ports <- sp_comports ;;
  r <- new_list ;;
  set_comm_ports_list r ;;;
  append_devices ports.

(** The caller receives the list object itself, not a copy of it. *)
Definition getAvailablePorts : M W list_ref :=
  get_comm_ports_list.

Definition open_conn (port : pyval) : M W bool :=
  try_except
    (c <- serial_Serial port 115200 PARITY_NONE STOPBITS_ONE EIGHTBITS 0.2%Q ;;
     set_conn c ;;;
     ret true)
    (m1 <- lift_result (str_add "UART ERROR: Serial port '" port) ;;
     print (m1 ++ "' not open")%string ;;;
     ret false).

Definition close_conn : M W unit :=
  try_except
    (c <- get_conn ;;
     Serial_close c)
    (print "UART ERROR: Serial connection close failed").

Definition clear_tx_buffer : M W unit :=
  try_except
    (c <- get_conn ;;
     Serial_flushOutput c)
    (print "UART ERROR: Clear TX serial buffer failed").

Definition clear_rx_buffer : M W unit :=
  try_except
    (c <- get_conn ;;
     Serial_flushInput c)
    (print "UART ERROR: Clear RX serial buffer failed").

Definition send_bytes (tx_buffer : pyval) : M W bool :=
  try_except
    (clear_tx_buffer ;;;
     c <- get_conn ;;
     _ <- Serial_write c tx_buffer ;;
     clear_tx_buffer ;;;
     ret true)
    (ret false).

(** The locals [rx_stat] and [rx_buf] start as [False] and [[]]; the only
    statement of the [try] body that can raise is the read itself, before
    either is reassigned, so the handler sees [rx_buf] still empty. *)
Definition read_bytes (rx_len : pyval) : M W (bool * list Z) :=
  let rx_stat := false in
  let rx_buf := @nil Z in
  try_except
    (c <- get_conn ;;
     raw <- Serial_read c rx_len ;;
     let rx_buf := map byte_to_int raw in
     let rx_stat := true in
     ret (rx_stat, rx_buf))
    (let rx_stat := false in
     ret (rx_stat, rx_buf)).

Definition get_unread_bytes : M W Z :=
  try_except
    (c <- get_conn ;;
     Serial_inWaiting c)
    (print "UART ERROR: Failed to get serial bytes in waiting" ;;;
     ret (-1)).

End Driver.

(** ** Calling the methods from outside *)

(** A call of one public method with its arguments, and the Python value it
    hands back. *)
Inductive method_call : Type :=
| GetAvailablePorts
| Open_conn (port : pyval)
| Close_conn
| Clear_tx_buffer
| Clear_rx_buffer
| Send_bytes (tx_buffer : pyval)
| Read_bytes (rx_len : pyval)
| Get_unread_bytes.

Inductive retval : Type :=
| RNone
| RBool (b : bool)
| RInt (z : Z)
| RListRef (r : list_ref)
| RTuple (rx_stat : bool) (rx_buf : list Z).

Section Calls.

Variable W : Type.
Variable E : SerialEnv W.

Definition fmap {A B : Type} (f : A -> B) (m : M W A) : M W B :=
  (a <- m ;; ret (f a)).

Definition invoke (m : method_call) : M W retval :=
  match m with
  | GetAvailablePorts => fmap RListRef (getAvailablePorts (W := W))
  | Open_conn port => fmap RBool (open_conn E port)
  | Close_conn => fmap (fun _ => RNone) (close_conn E)
  | Clear_tx_buffer => fmap (fun _ => RNone) (clear_tx_buffer E)
  | Clear_rx_buffer => fmap (fun _ => RNone) (clear_rx_buffer E)
  | Send_bytes tx_buffer => fmap RBool (send_bytes E tx_buffer)
  | Read_bytes rx_len =>
      fmap (fun p => RTuple (fst p) (snd p)) (read_bytes E rx_len)
  | Get_unread_bytes => fmap RInt (get_unread_bytes E)
  end.

(** A caller that issues the calls one after the other and goes on
    whatever each one returned or raised. *)
Fixpoint run_calls (ms : list method_call) (s : Sys W) : Sys W :=
  match ms with
  | [] => s
  | m :: rest => run_calls rest (snd (invoke m s))
  end.

(** [n] calls of the same method in a row; an exception of any of them
  would end the sequence and reach the caller. *)
Fixpoint call_times (n : nat) (m : M W unit) : M W unit :=
match n with
| O => ret tt
| S k => m ;;; call_times k m
end.

(** The seven transport operations called with a port name that is a
    [str] where a port is expected. *)
Definition transport_call (m : method_call) : bool :=
  match m with
  | GetAvailablePorts => false
  | Open_conn (PyStr _) => true
  | Open_conn _ => false
  | _ => true
  end.

(** What kind of Python value each method hands back. *)
Definition return_shape (m : method_call) (v : retval) : bool :=
  match m, v with
  | GetAvailablePorts, RListRef _ => true
  | Open_conn _, RBool _ => true
  | Send_bytes _, RBool _ => true
  | Close_conn, RNone => true
  | Clear_tx_buffer, RNone => true
  | Clear_rx_buffer, RNone => true
  | Read_bytes _, RTuple _ _ => true
  | Get_unread_bytes, RInt _ => true
  | _, _ => false
  end.

(** pyserial on a [Serial] object that is not open: input, output and the
    buffer calls raise and change nothing. *)
Definition closed_port_raises : Prop :=
  forall c w, env_is_open E c w = false ->
    (exists e, env_flushOutput E c w = (w, Raise e)) /\
    (exists e, env_flushInput E c w = (w, Raise e)) /\
    (forall d, exists e, env_write E c d w = (w, Raise e)) /\
    (forall n, exists e, env_read E c n w = (w, Raise e)) /\
    (exists e, env_inWaiting E c w = (w, Raise e)).

End Calls.

(** ** A bench environment

    A simulated serial library with one line, used to run the driver on
    concrete inputs.  It follows pyserial's documented behaviour: opening a
    name the system does not show raises [SerialException]; a port that is
    neither [None] nor a [str] raises [ValueError]; [Serial(port=None)]
    builds an object without opening it; input and output on a closed port
    raise [PortNotOpenError]; [read(n)] hands back at most [n] of the bytes
    that arrived before the read timeout, possibly none; [close()] of a
    closed port does nothing.  When the adapter is unplugged every call on
    an open port fails in the operating system; an adapter whose driver
    cannot discard its buffers fails the two flush calls only. *)
Module Bench.

Record rig : Type := mkRig {
  present : list string;
  opened : list Serial;
  next_obj : nat;
  rx_pending : list Byte.byte;
  tx_sent : list Byte.byte;
  unplugged : bool;
  flush_unsupported : bool
}.

Definition set_opened (o : list Serial) (n : nat) (w : rig) : rig :=
  {| present := present w; opened := o; next_obj := n;
     rx_pending := rx_pending w; tx_sent := tx_sent w;
     unplugged := unplugged w; flush_unsupported := flush_unsupported w |}.

Definition set_rx_pending (rx : list Byte.byte) (w : rig) : rig :=
  {| present := present w; opened := opened w; next_obj := next_obj w;
     rx_pending := rx; tx_sent := tx_sent w;
     unplugged := unplugged w; flush_unsupported := flush_unsupported w |}.

Definition set_tx_sent (tx : list Byte.byte) (w : rig) : rig :=
  {| present := present w; opened := opened w; next_obj := next_obj w;
     rx_pending := rx_pending w; tx_sent := tx;
     unplugged := unplugged w; flush_unsupported := flush_unsupported w |}.

Definition is_open (c : Serial) (w : rig) : bool :=
  existsb (Nat.eqb c) (opened w).

Definition comports (w : rig) : rig * result (list ListPortInfo) :=
  (w, Ok (map (fun d => mkPortInfo d "n/a" "n/a") (present w))).

Definition new_Serial (port : pyval) (baudrate : Z) (parity : Parity)
    (stopbits : StopBits) (bytesize : ByteSize) (timeout : Q) (w : rig)
    : rig * result Serial :=
  match port with
  | PyStr name =>
      if existsb (String.eqb name) (present w) && negb (unplugged w)
      then (set_opened (next_obj w :: opened w) (S (next_obj w)) w,
            Ok (next_obj w))
      else (w, Raise SerialException)
  | PyNone => (set_opened (opened w) (S (next_obj w)) w, Ok (next_obj w))
  | _ => (w, Raise ValueError)
  end.

Definition close (c : Serial) (w : rig) : rig * result unit :=
  if is_open c w then
    (set_opened (filter (fun o => negb (Nat.eqb c o)) (opened w))
       (next_obj w) w,
     if unplugged w then Raise OSError else Ok tt)
  else (w, Ok tt).

(** The guard every input and output call starts with. *)
Definition io {A : Type} (c : Serial) (w : rig)
    (k : rig * result A) : rig * result A :=
  if negb (is_open c w) then (w, Raise PortNotOpenError)
  else if unplugged w then (w, Raise SerialException)
  else k.

Definition flushOutput (c : Serial) (w : rig) : rig * result unit :=
  io c w (if flush_unsupported w then (w, Raise SerialException)
          else (w, Ok tt)).

Definition flushInput (c : Serial) (w : rig) : rig * result unit :=
  io c w (if flush_unsupported w then (w, Raise SerialException)
          else (set_rx_pending [] w, Ok tt)).

Definition write (c : Serial) (data : pyval) (w : rig) : rig * result Z :=
  io c w
    match data with
    | PyBytes b =>
        (set_tx_sent (tx_sent w ++ b)%list w, Ok (Z.of_nat (List.length b)))
    | _ => (w, Raise TypeError)
    end.

Definition read (c : Serial) (size : pyval) (w : rig)
    : rig * result (list Byte.byte) :=
  io c w
    match size with
    | PyInt n =>
        (set_rx_pending (skipn (Z.to_nat n) (rx_pending w)) w,
         Ok (firstn (Z.to_nat n) (rx_pending w)))
    | _ => (w, Raise TypeError)
    end.

Definition inWaiting (c : Serial) (w : rig) : rig * result Z :=
  io c w (w, Ok (Z.of_nat (List.length (rx_pending w)))).

Definition env : SerialEnv rig :=
  {| env_comports := comports;
     env_Serial := new_Serial;
     env_close := close;
     env_flushOutput := flushOutput;
     env_flushInput := flushInput;
     env_write := write;
     env_read := read;
     env_inWaiting := inWaiting;
     env_is_open := is_open |}.

(** A machine that shows two adapters, nothing open, a silent instrument. *)
Definition lab : rig :=
  {| present := ["COM3"; "COM7"]; opened := []; next_obj := 0%nat;
     rx_pending := []; tx_sent := []; unplugged := false;
     flush_unsupported := false |}.

Definition boot (w : rig) : Sys rig :=
  {| world := w; self := blank_object; heap := fun _ => []; fresh := 0%nat;
     trace := []; stdout := [] |}.

(** The state after [drv = UART_Driver()]. *)
Definition constructed : Sys rig := snd (__init__ env (boot lab)).

(** ... and after [drv.open_conn("COM3")]. *)
Definition connected : Sys rig :=
  snd (open_conn env (PyStr "COM3") constructed).

(** ... and after [drv.close_conn()]. *)
Definition disconnected : Sys rig := snd (close_conn env connected).

(** The instrument has answered: [reply] waits in the input buffer. *)
Definition with_reply (reply : list Byte.byte) (s : Sys rig) : Sys rig :=
  set_world (set_rx_pending reply (world s)) s.

(** The adapter is pulled out while the connection is open. *)
Definition unplug (s : Sys rig) : Sys rig :=
  set_world
    {| present := []; opened := opened (world s);
       next_obj := next_obj (world s); rx_pending := rx_pending (world s);
       tx_sent := tx_sent (world s); unplugged := true;
       flush_unsupported := flush_unsupported (world s) |} s.

(** The adapter's driver cannot discard its buffers. *)
Definition without_flush (s : Sys rig) : Sys rig :=
  set_world
    {| present := present (world s); opened := opened (world s);
       next_obj := next_obj (world s); rx_pending := rx_pending (world s);
       tx_sent := tx_sent (world s); unplugged := unplugged (world s);
       flush_unsupported := true |} s.

End Bench.

(** ** The Session: one exchange at a time

    The module that owns the driver and runs the exchanges (the interface
    object the main window holds next to its thread pool) is not among the
    sources; what follows is written from section 4.3 of the specification.
    Every submitted Command is a task with a number; a scheduler picks, step
    after step, which task moves, and the line decides whether a transport
    call succeeds. *)
Module Session.

Inductive connection : Type := Closed | Open | Faulted.

Inductive failure : Type :=
  NotConnected | SendFailure | ReadFailure | DecodeFailure.

Inductive outcome : Type :=
| Packet
| Failure (k : failure).

(** Where a task stands in [execute]. *)
Inductive stage : Type :=
| Submitted
| Waiting
| FlushOutbound
| FlushInbound
| Sending
| Receiving
| Decoding
| Releasing
| Resolved (o : outcome).

(** The calls the Transport sees. *)
Inductive transport_op : Type :=
  Op_flushOutbound | Op_flushInbound | Op_send | Op_receive.

Record state : Type := mkState {
  link : connection;
  holder : option nat;
  stage_of : nat -> stage;
  wire : list (nat * transport_op)
}.

(** A task is in flight from the moment it has the wire to the moment it
    gives it back. *)
Definition on_wire (g : stage) : bool :=
  match g with
  | FlushOutbound | FlushInbound | Sending | Receiving | Decoding
  | Releasing => true
  | _ => false
  end.

Definition is_resolved (g : stage) : bool :=
  match g with Resolved _ => true | _ => false end.

Definition set_stage (t : nat) (g : stage) (f : nat -> stage) : nat -> stage :=
  fun u => if Nat.eqb u t then g else f u.

(** Task [t] goes to stage [g], the wire is held by [h] afterwards, and the
    Transport has seen the calls [ops] of [t]. *)
Definition advance (st : state) (t : nat) (h : option nat) (g : stage)
    (ops : list transport_op) : state :=
  {| link := link st;
     holder := h;
     stage_of := set_stage t g (stage_of st);
     wire := (wire st ++ map (pair t) ops)%list |}.

(** Modelled from the spec: [Session.execute], which is not among the
    sources, one step of task [t] at a time.  (1) a Command is rejected with
    [NotConnected] unless the connection is [Open]; (2) it takes the wire
    when nobody holds it and waits otherwise; (3) both buffers are flushed,
    a failed flush does not abort; (4) send, on failure release and
    [SendFailure]; (5) receive, on failure release and [ReadFailure];
    (6) decode, on failure [DecodeFailure]; (7) release and the Packet.
    Step (6) does not say whether the wire is given back on a decode
    failure: [release_on_decode_failure] covers both readings.  [ok] is the
    result of the transport call or of the decoding made in this step. *)
Definition step (release_on_decode_failure : bool) (t : nat) (ok : bool)
    (st : state) : state :=
  match stage_of st t with
  | Submitted =>
      match link st with
      | Open => advance st t (holder st) Waiting []
      | _ => advance st t (holder st) (Resolved (Failure NotConnected)) []
      end
  | Waiting =>
      match holder st with
      | None => advance st t (Some t) FlushOutbound []
      | Some _ => st
      end
  | FlushOutbound => advance st t (holder st) FlushInbound [Op_flushOutbound]
  | FlushInbound => advance st t (holder st) Sending [Op_flushInbound]
  | Sending =>
      if ok then advance st t (holder st) Receiving [Op_send]
      else advance st t None (Resolved (Failure SendFailure)) [Op_send]
  | Receiving =>
      if ok then advance st t (holder st) Decoding [Op_receive]
      else advance st t None (Resolved (Failure ReadFailure)) [Op_receive]
  | Decoding =>
      if ok then advance st t (holder st) Releasing []
      else if release_on_decode_failure
           then advance st t None (Resolved (Failure DecodeFailure)) []
           else advance st t (holder st) (Resolved (Failure DecodeFailure)) []
  | Releasing => advance st t None (Resolved Packet) []
  | Resolved _ => st
  end.

(** A schedule: which task moves, and how its call turns out. *)
Fixpoint run (release_on_decode_failure : bool) (sched : list (nat * bool))
    (st : state) : state :=
  match sched with
  | [] => st
  | (t, ok) :: rest =>
      run release_on_decode_failure rest
        (step release_on_decode_failure t ok st)
  end.

(** Any number of Commands submitted, none started. *)
Definition init (l : connection) : state :=
  {| link := l; holder := None; stage_of := fun _ => Submitted; wire := [] |}.

(** The invariant of the Session. *)
Definition holder_is_on_wire (st : state) : Prop :=
  forall t, on_wire (stage_of st t) = true -> holder st = Some t.

Definition calls_are_owned (st : state) : Prop :=
  forall i a x,
    nth_error (wire st) i = Some (a, x) ->
    is_resolved (stage_of st a) = true \/
    (holder st = Some a /\
     forall j b y, (i < j)%nat -> nth_error (wire st) j = Some (b, y) -> b = a).

Definition not_interleaved (w : list (nat * transport_op)) : Prop :=
  forall i j k a b x y z,
    (i < j)%nat -> (j < k)%nat ->
    nth_error w i = Some (a, x) ->
    nth_error w j = Some (b, y) ->
    nth_error w k = Some (a, z) ->
    b = a.

Definition invariant (st : state) : Prop :=
  holder_is_on_wire st /\ calls_are_owned st /\ not_interleaved (wire st).

(** What a move of task [t] must respect for the invariant to survive. *)
Record admissible (st : state) (t : nat) (h : option nat) (g : stage)
    (ops : list transport_op) : Prop := {
  adm_live : is_resolved (stage_of st t) = false;
  adm_calls : ops <> [] -> on_wire (stage_of st t) = true;
  adm_enter : on_wire g = true -> h = Some t;
  adm_holder :
    h = holder st \/
    (holder st = None /\ h = Some t) \/
    (on_wire (stage_of st t) = true /\ h = None /\ is_resolved g = true)
}.

(** Two Commands at the same instant: task 0 takes the wire, task 1 asks
    for it in the middle of the exchange and has to wait; it gets the wire
    once task 0 has given it back. *)
Definition two_commands : list (nat * bool) :=
  [(0, true); (1, true); (0, true); (1, true); (0, true); (1, true);
   (0, true); (1, true); (0, true); (0, true); (1, true); (0, true);
   (0, true); (1, true); (1, true)]%nat.

End Session.

(** ** Vocabulary for the properties of the driver *)

Definition is_open_conn (m : method_call) : bool :=
  match m with Open_conn _ => true | _ => false end.

Definition is_str (v : pyval) : bool :=
  match v with PyStr _ => true | _ => false end.

(** [bytes([z])]: the byte an integer of 0..255 stands for. *)
Definition int_to_byte (z : Z) : option Byte.byte := Byte.of_N (Z.to_N z).

(** The messages the driver hands to [print] all start this way. *)
Definition error_message (msg : string) : bool :=
  String.prefix "UART ERROR: " msg.

(** * Properties of the driver *)

(** Unfolding of the monad and of the library stubs. *)
Ltac py_unfold :=
  unfold sp_comports, serial_Serial, Serial_close, Serial_flushOutput,
    Serial_flushInput, Serial_write, Serial_read, Serial_inWaiting in *;
  unfold try_except, bind, ret, raise, print, lift_result, get_conn, set_conn,
    get_comm_ports_list, set_comm_ports_list, new_list, list_append, lib in *.

(** Case analysis on the outcome of the next library call in the goal. *)
Ltac py_lib_case :=
  match goal with
  | |- context [env_flushOutput ?E ?c ?w] =>
      let w' := fresh "w" in let v := fresh "v" in let e := fresh "e" in
      let H := fresh "Hlib" in
      destruct (env_flushOutput E c w) as [w' [v | e]] eqn:H
  | |- context [env_flushInput ?E ?c ?w] =>
      let w' := fresh "w" in let v := fresh "v" in let e := fresh "e" in
      let H := fresh "Hlib" in
      destruct (env_flushInput E c w) as [w' [v | e]] eqn:H
  | |- context [env_write ?E ?c ?d ?w] =>
      let w' := fresh "w" in let v := fresh "v" in let e := fresh "e" in
      let H := fresh "Hlib" in
      destruct (env_write E c d w) as [w' [v | e]] eqn:H
  | |- context [env_read ?E ?c ?d ?w] =>
      let w' := fresh "w" in let v := fresh "v" in let e := fresh "e" in
      let H := fresh "Hlib" in
      destruct (env_read E c d w) as [w' [v | e]] eqn:H
  | |- context [env_inWaiting ?E ?c ?w] =>
      let w' := fresh "w" in let v := fresh "v" in let e := fresh "e" in
      let H := fresh "Hlib" in
      destruct (env_inWaiting E c w) as [w' [v | e]] eqn:H
  | |- context [env_close ?E ?c ?w] =>
      let w' := fresh "w" in let v := fresh "v" in let e := fresh "e" in
      let H := fresh "Hlib" in
      destruct (env_close E c w) as [w' [v | e]] eqn:H
  | |- context [env_Serial ?E ?p ?b ?pa ?st ?bs ?t ?w] =>
      let w' := fresh "w" in let v := fresh "v" in let e := fresh "e" in
      let H := fresh "Hlib" in
      destruct (env_Serial E p b pa st bs t w) as [w' [v | e]] eqn:H
  end.

Section DriverFacts.

Variable W : Type.
Variable E : SerialEnv W.

(** *** One equation per method *)

Lemma open_conn_eq (port : pyval) (s : Sys W) :
  open_conn E port s =
  let cl := Call_Serial port 115200 PARITY_NONE STOPBITS_ONE EIGHTBITS 0.2%Q in
  match env_Serial E port 115200 PARITY_NONE STOPBITS_ONE EIGHTBITS 0.2%Q
          (world s) with
  | (w', Ok c) => (Ok true, snd (set_conn c (moved w' cl s)))
  | (w', Raise _) =>
      match str_add "UART ERROR: Serial port '" port with
      | Ok m1 => (Ok false, printed (m1 ++ "' not open")%string (moved w' cl s))
      | Raise e => (Raise e, moved w' cl s)
      end
  end.
Proof.
  unfold open_conn; py_unfold; simpl.
  py_lib_case; simpl; [reflexivity|].
  destruct (str_add _ port); reflexivity.
Qed.

Lemma close_conn_eq (s : Sys W) :
  close_conn E s =
  match conn (self s) with
  | None => (Ok tt, printed "UART ERROR: Serial connection close failed" s)
  | Some c =>
      match env_close E c (world s) with
      | (w', Ok _) => (Ok tt, moved w' (Call_close c) s)
      | (w', Raise _) =>
          (Ok tt, printed "UART ERROR: Serial connection close failed"
                    (moved w' (Call_close c) s))
      end
  end.
Proof.
  unfold close_conn; py_unfold.
  destruct (conn (self s)) as [c|]; [|reflexivity].
  py_lib_case; [destruct v|]; reflexivity.
Qed.

Lemma clear_tx_buffer_eq (s : Sys W) :
  clear_tx_buffer E s =
  match conn (self s) with
  | None => (Ok tt, printed "UART ERROR: Clear TX serial buffer failed" s)
  | Some c =>
      match env_flushOutput E c (world s) with
      | (w', Ok _) => (Ok tt, moved w' (Call_flushOutput c) s)
      | (w', Raise _) =>
          (Ok tt, printed "UART ERROR: Clear TX serial buffer failed"
                    (moved w' (Call_flushOutput c) s))
      end
  end.
Proof.
  unfold clear_tx_buffer; py_unfold.
  destruct (conn (self s)) as [c|]; [|reflexivity].
  py_lib_case; [destruct v|]; reflexivity.
Qed.

Lemma clear_rx_buffer_eq (s : Sys W) :
  clear_rx_buffer E s =
  match conn (self s) with
  | None => (Ok tt, printed "UART ERROR: Clear RX serial buffer failed" s)
  | Some c =>
      match env_flushInput E c (world s) with
      | (w', Ok _) => (Ok tt, moved w' (Call_flushInput c) s)
      | (w', Raise _) =>
          (Ok tt, printed "UART ERROR: Clear RX serial buffer failed"
                    (moved w' (Call_flushInput c) s))
      end
  end.
Proof.
  unfold clear_rx_buffer; py_unfold.
  destruct (conn (self s)) as [c|]; [|reflexivity].
  py_lib_case; [destruct v|]; reflexivity.
Qed.

Lemma read_bytes_eq (rx_len : pyval) (s : Sys W) :
  read_bytes E rx_len s =
  match conn (self s) with
  | None => (Ok (false, []), s)
  | Some c =>
      match env_read E c rx_len (world s) with
      | (w', Ok raw) =>
          (Ok (true, map byte_to_int raw), moved w' (Call_read c rx_len) s)
      | (w', Raise _) => (Ok (false, []), moved w' (Call_read c rx_len) s)
      end
  end.
Proof.
  unfold read_bytes; py_unfold.
  destruct (conn (self s)) as [c|]; [|reflexivity].
  py_lib_case; reflexivity.
Qed.

Lemma get_unread_bytes_eq (s : Sys W) :
  get_unread_bytes E s =
  let msg := "UART ERROR: Failed to get serial bytes in waiting" in
  match conn (self s) with
  | None => (Ok (-1), printed msg s)
  | Some c =>
      match env_inWaiting E c (world s) with
      | (w', Ok n) => (Ok n, moved w' (Call_inWaiting c) s)
      | (w', Raise _) => (Ok (-1), printed msg (moved w' (Call_inWaiting c) s))
      end
  end.
Proof.
  unfold get_unread_bytes; py_unfold.
  destruct (conn (self s)) as [c|]; [|reflexivity].
  py_lib_case; reflexivity.
Qed.

(** The outbound flush as [send_bytes] sees it: it always comes back, the
    driver object and the list objects are untouched, and with a connection
    object at hand exactly one [flushOutput] reached the library. *)
Lemma clear_tx_buffer_step (s : Sys W) :
  exists s', clear_tx_buffer E s = (Ok tt, s') /\
    (self s' = self s /\ heap s' = heap s) /\
    match conn (self s) with
    | None => trace s' = trace s /\ world s' = world s
    | Some c =>
        trace s' = (trace s ++ [Call_flushOutput c])%list /\
        world s' = fst (env_flushOutput E c (world s))
    end.
Proof.
  rewrite clear_tx_buffer_eq.
  destruct (conn (self s)) as [c|] eqn:Hc.
  - destruct (env_flushOutput E c (world s)) as [w' [v|e]];
      eexists; (split; [reflexivity|]); simpl; auto.
  - eexists; split; [reflexivity|]; simpl; auto.
Qed.

Lemma send_bytes_eq (tx_buffer : pyval) (s : Sys W) :
  send_bytes E tx_buffer s =
  match clear_tx_buffer E s with
  | (_, s1) =>
      match conn (self s1) with
      | None => (Ok false, s1)
      | Some c =>
          match env_write E c tx_buffer (world s1) with
          | (w2, Ok _) =>
              (Ok true,
               snd (clear_tx_buffer E (moved w2 (Call_write c tx_buffer) s1)))
          | (w2, Raise _) =>
              (Ok false, moved w2 (Call_write c tx_buffer) s1)
          end
      end
  end.
Proof.
  destruct (clear_tx_buffer_step s) as [s1 [H1 _]].
  unfold send_bytes, try_except at 1, bind at 1. rewrite H1.
  unfold bind at 1, get_conn.
  destruct (conn (self s1)) as [c|]; [|reflexivity].
  unfold bind at 1, Serial_write, lib.
  destruct (env_write E c tx_buffer (world s1)) as [w2 [k|e]]; [|reflexivity].
  destruct (clear_tx_buffer_step (moved w2 (Call_write c tx_buffer) s1))
    as [s3 [H3 _]].
  unfold bind, ret. rewrite H3. reflexivity.
Qed.

End DriverFacts.

(** * The transport contract, claim by claim *)

Section DriverClaims.

Variable W : Type.
Variable E : SerialEnv W.

(** *** What the methods leave alone

    None of the transport operations but [open_conn] assigns an attribute,
    and none touches a list object. *)

Lemma close_conn_self (s : Sys W) :
  exists s', close_conn E s = (Ok tt, s') /\
             self s' = self s /\ heap s' = heap s.
Proof.
  rewrite close_conn_eq.
  destruct (conn (self s)) as [c|]; [|eexists; repeat split; reflexivity].
  destruct (env_close E c (world s)) as [w' [v|e]];
    eexists; repeat split; reflexivity.
Qed.

Lemma clear_rx_buffer_self (s : Sys W) :
  exists s', clear_rx_buffer E s = (Ok tt, s') /\
             self s' = self s /\ heap s' = heap s.
Proof.
  rewrite clear_rx_buffer_eq.
  destruct (conn (self s)) as [c|]; [|eexists; repeat split; reflexivity].
  destruct (env_flushInput E c (world s)) as [w' [v|e]];
    eexists; repeat split; reflexivity.
Qed.

Lemma clear_tx_buffer_self (s : Sys W) :
  exists s', clear_tx_buffer E s = (Ok tt, s') /\
             self s' = self s /\ heap s' = heap s.
Proof.
  destruct (clear_tx_buffer_step E s) as [s' [H [Hs _]]]. eauto.
Qed.

Lemma send_bytes_self (tx_buffer : pyval) (s : Sys W) :
  exists b s', send_bytes E tx_buffer s = (Ok b, s') /\
               self s' = self s /\ heap s' = heap s.
Proof.
  rewrite send_bytes_eq.
  destruct (clear_tx_buffer_self s) as [s1 [H1 [Hs1 Hh1]]]. rewrite H1.
  destruct (conn (self s1)) as [c|]; [|eauto].
  destruct (env_write E c tx_buffer (world s1)) as [w2 [k|e]].
  - destruct (clear_tx_buffer_self (moved w2 (Call_write c tx_buffer) s1))
      as [s3 [H3 [Hs3 Hh3]]].
    rewrite H3. simpl in *. do 2 eexists. split; [reflexivity|].
    split; congruence.
  - do 2 eexists. split; [reflexivity|]. simpl. auto.
Qed.

Lemma read_bytes_self (rx_len : pyval) (s : Sys W) :
  exists p s', read_bytes E rx_len s = (Ok p, s') /\
               self s' = self s /\ heap s' = heap s.
Proof.
  rewrite read_bytes_eq.
  destruct (conn (self s)) as [c|]; [|eauto].
  destruct (env_read E c rx_len (world s)) as [w' [raw|e]];
    do 2 eexists; repeat split; reflexivity.
Qed.

Lemma get_unread_bytes_self (s : Sys W) :
  exists z s', get_unread_bytes E s = (Ok z, s') /\
               self s' = self s /\ heap s' = heap s.
Proof.
  rewrite get_unread_bytes_eq. cbv zeta.
  destruct (conn (self s)) as [c|]; [|do 2 eexists; repeat split; reflexivity].
  destruct (env_inWaiting E c (world s)) as [w' [n|e]];
    do 2 eexists; repeat split; reflexivity.
Qed.

Lemma open_conn_keeps_ports (port : pyval) (s : Sys W) :
  comm_ports_list (self (snd (open_conn E port s))) =
    comm_ports_list (self s) /\
  heap (snd (open_conn E port s)) = heap s.
Proof.
  rewrite open_conn_eq. cbv zeta.
  destruct (env_Serial E port 115200 PARITY_NONE STOPBITS_ONE EIGHTBITS 0.2%Q
              (world s)) as [w' [c|e]]; [split; reflexivity|].
  destruct (str_add _ port); split; reflexivity.
Qed.

Lemma invoke_keeps_ports (m : method_call) (s : Sys W) :
  comm_ports_list (self (snd (invoke E m s))) = comm_ports_list (self s) /\
  heap (snd (invoke E m s)) = heap s.
Proof.
  destruct m; unfold invoke, fmap, bind, ret.
  - unfold getAvailablePorts, get_comm_ports_list.
    destruct (comm_ports_list (self s)) eqn:Hp; simpl; auto.
  - pose proof (open_conn_keeps_ports port s) as H.
    destruct (open_conn E port s) as [[b|e] s']; exact H.
  - destruct (close_conn_self s) as [s' [H [Hs Hh]]]. rewrite H. simpl.
    split; congruence.
  - destruct (clear_tx_buffer_self s) as [s' [H [Hs Hh]]]. rewrite H. simpl.
    split; congruence.
  - destruct (clear_rx_buffer_self s) as [s' [H [Hs Hh]]]. rewrite H. simpl.
    split; congruence.
  - destruct (send_bytes_self tx_buffer s) as [b [s' [H [Hs Hh]]]]. rewrite H.
    simpl. split; congruence.
  - destruct (read_bytes_self rx_len s) as [p [s' [H [Hs Hh]]]]. rewrite H.
    simpl. split; congruence.
  - destruct (get_unread_bytes_self s) as [z [s' [H [Hs Hh]]]]. rewrite H.
    simpl. split; congruence.
Qed.

Lemma run_calls_keeps_ports (ms : list method_call) (s : Sys W) :
  comm_ports_list (self (run_calls E ms s)) = comm_ports_list (self s) /\
  heap (run_calls E ms s) = heap s.
Proof.
  revert s. induction ms as [|m ms IH]; intro s; simpl; [auto|].
  destruct (IH (snd (invoke E m s))) as [IHp IHh].
  destruct (invoke_keeps_ports m s) as [Hp Hh]. split; congruence.
Qed.

(** The loop of the constructor appends the device names, in order, to the
    list object the attribute refers to, and touches nothing else. *)
Lemma append_devices_ok (ports : list ListPortInfo) :
  forall (s : Sys W) (r : list_ref),
    comm_ports_list (self s) = Some r ->
    exists s', @append_devices W ports s = (Ok tt, s') /\
      self s' = self s /\
      heap s' r = (heap s r ++ map device ports)%list /\
      world s' = world s /\ trace s' = trace s /\ stdout s' = stdout s.
Proof.
  induction ports as [|p ports IH]; intros s r Hr; simpl.
  - exists s. unfold ret. rewrite app_nil_r. repeat split; auto.
  - unfold bind at 1, get_comm_ports_list. rewrite Hr.
    unfold bind at 1, list_append.
    edestruct IH as [s' [H [Hself [Hheap Hrest]]]]; [|rewrite H].
    + simpl. exact Hr.
    + exists s'. split; [reflexivity|]. split; [exact Hself|].
      split; [|exact Hrest].
      rewrite Hheap. simpl. rewrite Nat.eqb_refl, <- app_assoc. reflexivity.
Qed.

Lemma init_ok (s0 s1 : Sys W) :
  __init__ E s0 = (Ok tt, s1) ->
  exists w' ports,
    env_comports E (world s0) = (w', Ok ports) /\
    comm_ports_list (self s1) = Some (fresh s0) /\
    heap s1 (fresh s0) = map device ports /\
    conn (self s1) = conn (self s0) /\ world s1 = w' /\
    trace s1 = (trace s0 ++ [Call_comports])%list.
Proof.
  unfold __init__, bind at 1, sp_comports, lib.
  destruct (env_comports E (world s0)) as [w' [ports|e]]; [|discriminate].
  unfold bind at 1, new_list. unfold bind at 1, set_comm_ports_list.
  edestruct (append_devices_ok ports) as [s' [H [Hself [Hheap [Hw [Ht Ho]]]]]];
    [|rewrite H].
  - simpl. reflexivity.
  - intro Heq. inversion Heq; subst s'. exists w', ports.
    rewrite Hself, Hheap, Hw, Ht. simpl. rewrite Nat.eqb_refl.
    repeat split; reflexivity.
Qed.

(** *** The claims *)

(** C1 (as amended): [read_bytes] issues one read of the requested length
    on the connection object and never raises.  When the read raises, or
    when no connection object was ever stored, it hands back the failure
    status with an empty list.  When the read returns, it hands back the
    success status with the bytes received, whatever their number: a read
    that timed out with fewer bytes than requested, possibly none, is
    reported with the success status. *)
Theorem read_bytes_status (rx_len : pyval) (s : Sys W) :
  (conn (self s) = None ->
     read_bytes E rx_len s = (Ok (false, []), s)) /\
  (forall c w' e,
     conn (self s) = Some c ->
     env_read E c rx_len (world s) = (w', Raise e) ->
     read_bytes E rx_len s =
       (Ok (false, []), moved w' (Call_read c rx_len) s)) /\
  (forall c w' raw,
     conn (self s) = Some c ->
     env_read E c rx_len (world s) = (w', Ok raw) ->
     read_bytes E rx_len s =
       (Ok (true, map byte_to_int raw), moved w' (Call_read c rx_len) s)).
Proof.
  rewrite read_bytes_eq. repeat split.
  - intros ->. reflexivity.
  - intros c w' e -> ->. reflexivity.
  - intros c w' raw -> ->. reflexivity.
Qed.

(** C2 (as amended): called with a [str] port name where a port is
    expected, none of the seven transport operations raises, whatever the
    serial library does.  [open_conn] and [send_bytes] hand back a boolean,
    [read_bytes] a pair of a boolean and a list, [get_unread_bytes] an
    integer; [close_conn], [clear_tx_buffer] and [clear_rx_buffer] hand
    back [None] on success and on failure alike. *)
Theorem transport_calls_return (m : method_call) (s : Sys W) :
  transport_call m = true ->
  exists v s', invoke E m s = (Ok v, s') /\ return_shape m v = true.
Proof.
  destruct m; simpl; intro Hm; try discriminate;
    unfold fmap, bind, ret.
  - destruct port; try discriminate.
    rewrite open_conn_eq. cbv zeta.
    destruct (env_Serial E (PyStr s0) 115200 PARITY_NONE STOPBITS_ONE
                EIGHTBITS 0.2%Q (world s)) as [w' [c|e]]; simpl;
      do 2 eexists; split; reflexivity.
  - destruct (close_conn_self s) as [s' [H _]]. rewrite H. eauto.
  - destruct (clear_tx_buffer_self s) as [s' [H _]]. rewrite H. eauto.
  - destruct (clear_rx_buffer_self s) as [s' [H _]]. rewrite H. eauto.
  - destruct (send_bytes_self tx_buffer s) as [b [s' [H _]]]. rewrite H. eauto.
  - destruct (read_bytes_self rx_len s) as [p [s' [H _]]]. rewrite H. eauto.
  - destruct (get_unread_bytes_self s) as [z [s' [H _]]]. rewrite H. eauto.
Qed.

(** C3: whatever the port and whatever the state of the driver,
    [open_conn] makes exactly one call into the library, the construction
    of a [Serial] object for that port with 115200 baud, no parity, one
    stop bit, eight data bits and a read timeout of 0.2 s.  The method has
    no other parameter than the port. *)
Theorem open_conn_fixed_link_parameters (port : pyval) (s : Sys W) :
  trace (snd (open_conn E port s)) =
    (trace s ++
     [Call_Serial port 115200 PARITY_NONE STOPBITS_ONE EIGHTBITS 0.2%Q])%list /\
  world (snd (open_conn E port s)) =
    fst (env_Serial E port 115200 PARITY_NONE STOPBITS_ONE EIGHTBITS 0.2%Q
           (world s)) /\
  Parity_value PARITY_NONE = "N" /\
  StopBits_value STOPBITS_ONE = 1%Q /\
  ByteSize_value EIGHTBITS = 8.
Proof.
  rewrite open_conn_eq. cbv zeta.
  destruct (env_Serial E port 115200 PARITY_NONE STOPBITS_ONE EIGHTBITS 0.2%Q
              (world s)) as [w' [c|e]]; simpl.
  - repeat split; reflexivity.
  - destruct (str_add _ port); simpl; repeat split; reflexivity.
Qed.

(** C4: for every port name, when the construction of the [Serial] object
    raises, [open_conn] prints the error line and returns [False] without
    raising, and the attributes of the driver are what they were: no
    connection object is stored, so a driver without a connection still
    has none. *)
Theorem open_conn_failure_keeps_closed
    (name : string) (s : Sys W) (w' : W) (e : exn) :
  env_Serial E (PyStr name) 115200 PARITY_NONE STOPBITS_ONE EIGHTBITS 0.2%Q
    (world s) = (w', Raise e) ->
  open_conn E (PyStr name) s =
    (Ok false,
     printed ("UART ERROR: Serial port '" ++ name ++ "' not open")%string
       (moved w' (Call_Serial (PyStr name) 115200 PARITY_NONE STOPBITS_ONE
                    EIGHTBITS 0.2%Q) s)) /\
  self (snd (open_conn E (PyStr name) s)) = self s /\
  (conn (self s) = None ->
   conn (self (snd (open_conn E (PyStr name) s))) = None).
Proof.
  intro H. rewrite open_conn_eq. cbv zeta. rewrite H. simpl.
  repeat split; auto.
Qed.

(** [send_bytes] with a connection object, in full: the result, the calls
    and the state they leave. *)
Lemma send_bytes_with_conn (tx_buffer : pyval) (s : Sys W) :
  forall c w2 r2,
  conn (self s) = Some c ->
  env_write E c tx_buffer (fst (env_flushOutput E c (world s))) = (w2, r2) ->
  fst (send_bytes E tx_buffer s) = Ok (negb (raised r2)) /\
  trace (snd (send_bytes E tx_buffer s)) =
    (trace s ++ [Call_flushOutput c; Call_write c tx_buffer] ++
     (if raised r2 then [] else [Call_flushOutput c]))%list /\
  world (snd (send_bytes E tx_buffer s)) =
    (if raised r2 then w2 else fst (env_flushOutput E c w2)) /\
  self (snd (send_bytes E tx_buffer s)) = self s /\
  heap (snd (send_bytes E tx_buffer s)) = heap s /\
  fresh (snd (send_bytes E tx_buffer s)) = fresh s /\
  stdout (snd (send_bytes E tx_buffer s)) =
    (stdout s ++
     (if raised (snd (env_flushOutput E c (world s)))
      then ["UART ERROR: Clear TX serial buffer failed"] else []) ++
     (if raised r2 then []
      else if raised (snd (env_flushOutput E c w2))
           then ["UART ERROR: Clear TX serial buffer failed"]
           else []))%list.
Proof.
  intros c w2 r2 Hc Hw.
  rewrite send_bytes_eq, clear_tx_buffer_eq, Hc.
  destruct (env_flushOutput E c (world s)) as [w1 [v1|e1]];
    simpl in Hw |- *; rewrite Hc, Hw;
    (destruct r2 as [k|e2]; simpl;
     [ rewrite clear_tx_buffer_eq; simpl; rewrite Hc;
       destruct (env_flushOutput E c w2) as [w3 [v3|e3]]; simpl
     | ]);
    repeat split; rewrite ?app_nil_r, <- ?app_assoc; reflexivity.
Qed.

(** C5: [send_bytes] never raises.  With a connection object stored it
    calls, in this order, [flushOutput], [write] with the given buffer and,
    when the write came back, [flushOutput] again, and returns [True]; when
    the write raises it returns [False] and the second flush is not made.
    Each call acts on the world the previous one left: the world after
    [send_bytes] is the one the last of these calls produced, so the write
    of the library is really made, with the given buffer.  The driver's
    attributes and its lists are untouched, and the only output is the
    message of each flush that failed.  Without a connection object no call reaches
    the library, the flush failure is printed and the result is [False]; on
    a port that is not open, where pyserial raises and changes nothing, the
    result is [False] and the world is what it was. *)
Theorem send_bytes_sequence (tx_buffer : pyval) (s : Sys W) :
  (exists b s', send_bytes E tx_buffer s = (Ok b, s')) /\
  (conn (self s) = None ->
     fst (send_bytes E tx_buffer s) = Ok false /\
     trace (snd (send_bytes E tx_buffer s)) = trace s /\
     send_bytes E tx_buffer s =
       (Ok false, printed "UART ERROR: Clear TX serial buffer failed" s)) /\
  (forall c w2 r2,
     conn (self s) = Some c ->
     env_write E c tx_buffer (fst (env_flushOutput E c (world s))) = (w2, r2) ->
     fst (send_bytes E tx_buffer s) = Ok (negb (raised r2)) /\
     trace (snd (send_bytes E tx_buffer s)) =
       (trace s ++ [Call_flushOutput c; Call_write c tx_buffer] ++
        (if raised r2 then [] else [Call_flushOutput c]))%list /\
     world (snd (send_bytes E tx_buffer s)) =
       (if raised r2 then w2 else fst (env_flushOutput E c w2)) /\
     self (snd (send_bytes E tx_buffer s)) = self s /\
     heap (snd (send_bytes E tx_buffer s)) = heap s /\
     fresh (snd (send_bytes E tx_buffer s)) = fresh s /\
     stdout (snd (send_bytes E tx_buffer s)) =
       (stdout s ++
        (if raised (snd (env_flushOutput E c (world s)))
         then ["UART ERROR: Clear TX serial buffer failed"] else []) ++
        (if raised r2 then []
         else if raised (snd (env_flushOutput E c w2))
              then ["UART ERROR: Clear TX serial buffer failed"]
              else []))%list) /\
  (forall c,
     closed_port_raises E ->
     conn (self s) = Some c ->
     env_is_open E c (world s) = false ->
     fst (send_bytes E tx_buffer s) = Ok false /\
     world (snd (send_bytes E tx_buffer s)) = world s).
Proof.
  pose proof (send_bytes_with_conn tx_buffer s) as Hsome.
  split; [|split; [|split]].
  - destruct (send_bytes_self tx_buffer s) as [b [s' [H _]]]. eauto.
  - intro Hc.
    assert (Heq : send_bytes E tx_buffer s =
              (Ok false,
               printed "UART ERROR: Clear TX serial buffer failed" s)).
    { rewrite send_bytes_eq, clear_tx_buffer_eq, Hc. simpl. rewrite Hc.
      reflexivity. }
    rewrite Heq. simpl. auto.
  - exact Hsome.
  - intros c Hlib Hc Hclosed.
    destruct (Hlib c (world s) Hclosed) as [[e1 Hf] [_ [Hwr _]]].
    destruct (Hwr tx_buffer) as [e2 He2].
    destruct (Hsome c (world s) (@Raise Z e2) Hc) as [Hr [_ [Hwd _]]].
    + rewrite Hf. exact He2.
    + split; [exact Hr|exact Hwd].
Qed.

(** C6: [close_conn] can be called any number of times in a row, in any
    state of the driver and of the line, and never raises; it leaves the
    attributes of the driver as they were.  When the close of the library
    raises, or when no connection object was ever stored, the failure is
    printed and the method returns normally.  Where closing a closed port
    does nothing, as in pyserial, a second [close_conn] changes neither the
    world nor the driver nor the output. *)
Theorem close_conn_never_fails (n : nat) (s : Sys W) :
  (exists s', call_times n (close_conn E) s = (Ok tt, s') /\
              self s' = self s) /\
  (conn (self s) = None ->
     close_conn E s =
       (Ok tt, printed "UART ERROR: Serial connection close failed" s)) /\
  (forall c w' e,
     conn (self s) = Some c ->
     env_close E c (world s) = (w', Raise e) ->
     close_conn E s =
       (Ok tt, printed "UART ERROR: Serial connection close failed"
                 (moved w' (Call_close c) s))) /\
  (forall c w',
     conn (self s) = Some c ->
     fst (env_close E c (world s)) = w' ->
     env_close E c w' = (w', Ok tt) ->
     exists s1 s2,
       close_conn E s = (Ok tt, s1) /\
       close_conn E s1 = (Ok tt, s2) /\
       world s2 = world s1 /\ self s2 = self s1 /\ stdout s2 = stdout s1).
Proof.
  split; [|split; [|split]].
  - revert s. induction n as [|n IH]; intro s; simpl.
    + exists s. split; reflexivity.
    + unfold bind. destruct (close_conn_self s) as [s1 [H1 [Hs1 _]]].
      rewrite H1. destruct (IH s1) as [s' [H Hs]].
      exists s'. split; [exact H|congruence].
  - intro Hc. rewrite close_conn_eq, Hc. reflexivity.
  - intros c w' e Hc Hcl. rewrite close_conn_eq, Hc, Hcl. reflexivity.
  - intros c w' Hc Hw Hagain.
    assert (Hstep : forall s1, conn (self s1) = Some c -> world s1 = w' ->
              close_conn E s1 = (Ok tt, moved w' (Call_close c) s1)).
    { intros s1 Hc1 Hw1. rewrite close_conn_eq, Hc1, Hw1, Hagain.
      reflexivity. }
    rewrite close_conn_eq, Hc.
    destruct (env_close E c (world s)) as [w1 [v|e]] eqn:Hcl;
      simpl in Hw; subst w1;
      eexists; eexists; (split; [reflexivity|]);
      (split; [apply Hstep; [exact Hc|reflexivity]|]);
      repeat split; reflexivity.
Qed.

(** C7: [clear_tx_buffer] and [clear_rx_buffer] never raise; a flush that
    fails in the library is printed.  Inside [send_bytes], when the first
    outbound flush fails, the write is still issued right after it, on the
    world the failed flush left, and the result of [send_bytes] is decided
    by the write alone. *)
Theorem flush_failures_do_not_abort (s : Sys W) :
  (exists s', clear_tx_buffer E s = (Ok tt, s')) /\
  (exists s', clear_rx_buffer E s = (Ok tt, s')) /\
  (forall c w1 e,
     conn (self s) = Some c ->
     env_flushOutput E c (world s) = (w1, Raise e) ->
     clear_tx_buffer E s =
       (Ok tt, printed "UART ERROR: Clear TX serial buffer failed"
                 (moved w1 (Call_flushOutput c) s))) /\
  (forall c w1 e,
     conn (self s) = Some c ->
     env_flushInput E c (world s) = (w1, Raise e) ->
     clear_rx_buffer E s =
       (Ok tt, printed "UART ERROR: Clear RX serial buffer failed"
                 (moved w1 (Call_flushInput c) s))) /\
  (forall c w1 e tx_buffer w2 r2,
     conn (self s) = Some c ->
     env_flushOutput E c (world s) = (w1, Raise e) ->
     env_write E c tx_buffer w1 = (w2, r2) ->
     fst (send_bytes E tx_buffer s) = Ok (negb (raised r2)) /\
     exists rest,
       trace (snd (send_bytes E tx_buffer s)) =
         (trace s ++
          Call_flushOutput c :: Call_write c tx_buffer :: rest)%list).
Proof.
  split; [|split; [|split; [|split]]].
  - destruct (clear_tx_buffer_self s) as [s' [H _]]. eauto.
  - destruct (clear_rx_buffer_self s) as [s' [H _]]. eauto.
  - intros c w1 e Hc Hf. rewrite clear_tx_buffer_eq, Hc, Hf. reflexivity.
  - intros c w1 e Hc Hf. rewrite clear_rx_buffer_eq, Hc, Hf. reflexivity.
  - intros c w1 e tx_buffer w2 r2 Hc Hf Hw.
    destruct (@send_bytes_with_conn tx_buffer s c w2 r2 Hc) as [Hr [Ht _]].
    + rewrite Hf. exact Hw.
    + split; [exact Hr|]. rewrite Ht. simpl. eauto.
Qed.

(** C8: [get_unread_bytes] never raises and makes no call into the
    library but the one query of the input buffer (no read).  Without a
    connection object, or when the query raises, as pyserial does on a port
    that is not open, it prints the failure and returns [-1]; when the
    query returns it returns the count the library gave. *)
Theorem get_unread_bytes_sentinel (s : Sys W) :
  (exists z s' l,
     get_unread_bytes E s = (Ok z, s') /\
     trace s' = (trace s ++ l)%list /\
     forall cl, In cl l -> exists c, cl = Call_inWaiting c) /\
  (conn (self s) = None ->
     get_unread_bytes E s =
       (Ok (-1),
        printed "UART ERROR: Failed to get serial bytes in waiting" s)) /\
  (forall c w' e,
     conn (self s) = Some c ->
     env_inWaiting E c (world s) = (w', Raise e) ->
     get_unread_bytes E s =
       (Ok (-1),
        printed "UART ERROR: Failed to get serial bytes in waiting"
          (moved w' (Call_inWaiting c) s))) /\
  (forall c w' n,
     conn (self s) = Some c ->
     env_inWaiting E c (world s) = (w', Ok n) ->
     get_unread_bytes E s = (Ok n, moved w' (Call_inWaiting c) s)) /\
  (forall c,
     closed_port_raises E ->
     conn (self s) = Some c ->
     env_is_open E c (world s) = false ->
     fst (get_unread_bytes E s) = Ok (-1)).
Proof.
  rewrite get_unread_bytes_eq. cbv zeta.
  split; [|split; [|split; [|split]]].
  - destruct (conn (self s)) as [c|].
    + destruct (env_inWaiting E c (world s)) as [w' [n|e]];
        do 2 eexists; exists [Call_inWaiting c];
        (split; [reflexivity|]); (split; [reflexivity|]);
        intros cl [<-|[]]; eauto.
    + do 2 eexists. exists []. split; [reflexivity|].
      split; [simpl; rewrite app_nil_r; reflexivity|]. intros cl [].
  - intros ->. reflexivity.
  - intros c w' e -> ->. reflexivity.
  - intros c w' n -> ->. reflexivity.
  - intros c Hlib Hc Hclosed. rewrite Hc.
    destruct (Hlib c (world s) Hclosed) as [_ [_ [_ [_ [e He]]]]].
    rewrite He. reflexivity.
Qed.

(** C10: once the constructor has returned, every call of
    [getAvailablePorts] hands back one and the same list object, the one the
    constructor filled from its single enumeration; it holds the device
    names of that enumeration, in that order.  This holds after any
    sequence of calls of the driver's methods and whatever the world has
    become in between; the call itself changes nothing: no call reaches the
    library and the attributes, the connection among them, stay as they
    are. *)
Theorem getAvailablePorts_snapshot (s0 s1 : Sys W) :
  __init__ E s0 = (Ok tt, s1) ->
  exists r ports,
    snd (env_comports E (world s0)) = Ok ports /\
    forall (ms : list method_call) (w' : W),
      let s2 := set_world w' (run_calls E ms s1) in
      @getAvailablePorts W s2 = (Ok r, s2) /\
      heap s2 r = map device ports.
Proof.
  intro Hinit.
  destruct (@init_ok s0 s1 Hinit) as [w1 [ports [Hcom [Hp [Hh _]]]]].
  exists (fresh s0), ports. split; [rewrite Hcom; reflexivity|].
  intros ms w' s2. unfold getAvailablePorts, get_comm_ports_list.
  destruct (run_calls_keeps_ports ms s1) as [Hp2 Hh2].
  assert (Hs2 : comm_ports_list (self s2) = Some (fresh s0)).
  { unfold s2, set_world. simpl. rewrite Hp2. exact Hp. }
  rewrite Hs2. split; [reflexivity|].
  unfold s2, set_world. simpl. rewrite Hh2. exact Hh.
Qed.

End DriverClaims.

(** * The claims on the bench *)

(** The bench library honours pyserial's guard on a port that is not
    open. *)
Lemma bench_closed_port_raises : closed_port_raises Bench.env.
Proof.
  intros c w Hclosed. simpl in Hclosed.
  unfold env_flushOutput, env_flushInput, env_write, env_read,
    env_inWaiting, Bench.env, Bench.flushOutput, Bench.flushInput,
    Bench.write, Bench.read, Bench.inWaiting, Bench.io.
  rewrite Hclosed. simpl. repeat split; intros; eexists; reflexivity.
Qed.

(** C1, the statement of the spec refuted: the instrument is silent, the
    read of four bytes times out with none, and [read_bytes] reports the
    success status. *)
Lemma read_bytes_short_read_reports_success :
  snd (env_read Bench.env 0%nat (PyInt 4) (world Bench.connected)) = Ok [] /\
  fst (read_bytes Bench.env (PyInt 4) Bench.connected) = Ok (true, []) /\
  fst (read_bytes Bench.env (PyInt 4) Bench.connected) <> Ok (false, []).
Proof.
  split; [reflexivity|]. split; [reflexivity|]. vm_compute. discriminate.
Qed.

(** Two bytes of a four-byte reply arrive before the timeout. *)
Lemma read_bytes_status_witness :
  conn (self (Bench.with_reply [Byte.x35; Byte.x2e] Bench.connected)) =
    Some 0%nat /\
  fst (read_bytes Bench.env (PyInt 4)
         (Bench.with_reply [Byte.x35; Byte.x2e] Bench.connected)) =
    Ok (true, [53; 46]).
Proof.
  split; [reflexivity|].
  rewrite (proj2 (proj2 (read_bytes_status Bench.env (PyInt 4)
             (Bench.with_reply [Byte.x35; Byte.x2e] Bench.connected)))
             0%nat
             (Bench.set_rx_pending [] (world Bench.connected))
             [Byte.x35; Byte.x2e]);
    reflexivity.
Defined.

(** C2, the statement of the spec refuted.  A port that is not a [str]:
    pyserial refuses it with [ValueError] and the handler of [open_conn]
    raises [TypeError] while it builds its message.  And [close_conn] hands
    back [None] after a close that failed as after one that succeeded. *)
Lemma transport_call_raises_or_returns_nothing :
  fst (invoke Bench.env (Open_conn (PyInt 5)) Bench.constructed) =
    Raise TypeError /\
  (snd (env_close Bench.env 0%nat (world (Bench.unplug Bench.connected))) =
     Raise OSError /\
   fst (invoke Bench.env Close_conn (Bench.unplug Bench.connected)) =
     Ok RNone) /\
  (snd (env_close Bench.env 0%nat (world Bench.connected)) = Ok tt /\
   fst (invoke Bench.env Close_conn Bench.connected) = Ok RNone).
Proof.
  repeat split; reflexivity.
Qed.

(** A port name the system does not show: [open_conn] returns a boolean. *)
Lemma transport_calls_return_witness :
  transport_call (Open_conn (PyStr "COM_DOES_NOT_EXIST")) = true /\
  exists v s',
    invoke Bench.env (Open_conn (PyStr "COM_DOES_NOT_EXIST"))
      Bench.constructed = (Ok v, s') /\
    return_shape (Open_conn (PyStr "COM_DOES_NOT_EXIST")) v = true.
Proof.
  split; [reflexivity|].
  apply (transport_calls_return Bench.env
           (Open_conn (PyStr "COM_DOES_NOT_EXIST")) Bench.constructed).
  reflexivity.
Defined.

(** Opening a port that does not exist on a freshly constructed driver. *)
Lemma open_conn_failure_keeps_closed_witness :
  env_Serial Bench.env (PyStr "COM_DOES_NOT_EXIST") 115200 PARITY_NONE
    STOPBITS_ONE EIGHTBITS 0.2%Q (world Bench.constructed) =
    (world Bench.constructed, Raise SerialException) /\
  fst (open_conn Bench.env (PyStr "COM_DOES_NOT_EXIST") Bench.constructed) =
    Ok false /\
  conn (self (snd (open_conn Bench.env (PyStr "COM_DOES_NOT_EXIST")
                     Bench.constructed))) = None.
Proof.
  split; [reflexivity|].
  destruct (open_conn_failure_keeps_closed Bench.env "COM_DOES_NOT_EXIST"
              Bench.constructed (w' := world Bench.constructed)
              (e := SerialException) eq_refl) as [Heq [_ Hnone]].
  split; [rewrite Heq; reflexivity|]. apply Hnone. reflexivity.
Defined.

(** Two bytes are sent on the open connection; the same call after
    [close_conn], and on a driver that never opened a port. *)
Lemma send_bytes_sequence_witness :
  (conn (self Bench.connected) = Some 0%nat /\
   fst (send_bytes Bench.env (PyBytes [Byte.x35; Byte.x2e]) Bench.connected) =
     Ok true /\
   trace (snd (send_bytes Bench.env (PyBytes [Byte.x35; Byte.x2e])
                 Bench.connected)) =
     (trace Bench.connected ++
      [Call_flushOutput 0%nat;
       Call_write 0%nat (PyBytes [Byte.x35; Byte.x2e]);
       Call_flushOutput 0%nat])%list /\
   Bench.tx_sent
     (world (snd (send_bytes Bench.env (PyBytes [Byte.x35; Byte.x2e])
                    Bench.connected))) = [Byte.x35; Byte.x2e] /\
   stdout (snd (send_bytes Bench.env (PyBytes [Byte.x35; Byte.x2e])
                  Bench.connected)) = []) /\
  (env_is_open Bench.env 0%nat (world Bench.disconnected) = false /\
   fst (send_bytes Bench.env (PyBytes [Byte.x35; Byte.x2e])
          Bench.disconnected) = Ok false /\
   Bench.tx_sent
     (world (snd (send_bytes Bench.env (PyBytes [Byte.x35; Byte.x2e])
                    Bench.disconnected))) = []) /\
  (conn (self Bench.constructed) = None /\
   send_bytes Bench.env (PyBytes [Byte.x35; Byte.x2e]) Bench.constructed =
     (Ok false,
      printed "UART ERROR: Clear TX serial buffer failed" Bench.constructed)).
Proof.
  split; [|split].
  - split; [reflexivity|].
    destruct (proj1 (proj2 (proj2 (send_bytes_sequence Bench.env
                (PyBytes [Byte.x35; Byte.x2e]) Bench.connected)))
                0%nat
                (Bench.set_tx_sent [Byte.x35; Byte.x2e]
                   (world Bench.connected))
                (Ok 2) eq_refl eq_refl)
      as [Hr [Ht [Hw [_ [_ [_ Ho]]]]]].
    split; [exact Hr|]. split; [exact Ht|].
    split; [rewrite Hw; reflexivity|rewrite Ho; reflexivity].
  - split; [reflexivity|].
    destruct (proj2 (proj2 (proj2 (send_bytes_sequence Bench.env
                (PyBytes [Byte.x35; Byte.x2e]) Bench.disconnected)))
                0%nat bench_closed_port_raises eq_refl eq_refl)
      as [Hr Hw].
    split; [exact Hr|rewrite Hw; reflexivity].
  - split; [reflexivity|].
    apply (proj1 (proj2 (send_bytes_sequence Bench.env
             (PyBytes [Byte.x35; Byte.x2e]) Bench.constructed))).
    reflexivity.
Defined.

(** The adapter is pulled out: the close fails and is printed.  On the
    bench a second close is a no-op. *)
Lemma close_conn_never_fails_witness :
  snd (env_close Bench.env 0%nat (world (Bench.unplug Bench.connected))) =
    Raise OSError /\
  fst (close_conn Bench.env (Bench.unplug Bench.connected)) = Ok tt /\
  stdout (snd (close_conn Bench.env (Bench.unplug Bench.connected))) =
    ["UART ERROR: Serial connection close failed"] /\
  fst (close_conn Bench.env Bench.constructed) = Ok tt /\
  exists s2,
    close_conn Bench.env Bench.disconnected = (Ok tt, s2) /\
    world s2 = world Bench.disconnected.
Proof.
  split; [reflexivity|].
  destruct (close_conn_never_fails Bench.env 3
              (Bench.unplug Bench.connected)) as [_ [_ [Hraise _]]].
  rewrite (Hraise 0%nat
             (Bench.set_opened [] 1%nat (world (Bench.unplug Bench.connected)))
             OSError eq_refl eq_refl).
  split; [reflexivity|]. split; [reflexivity|].
  rewrite (proj1 (proj2 (close_conn_never_fails Bench.env 0
                           Bench.constructed)) eq_refl).
  split; [reflexivity|].
  destruct (proj2 (proj2 (proj2 (close_conn_never_fails Bench.env 2
                                   Bench.connected)))
              0%nat (world Bench.disconnected) eq_refl eq_refl eq_refl)
    as [s1 [s2 [H1 [H2 [Hw _]]]]].
  assert (Hs1 : s1 = Bench.disconnected)
    by (unfold Bench.disconnected; rewrite H1; reflexivity).
  subst s1. exists s2. split; [exact H2|exact Hw].
Defined.

(** The flush of the adapter fails, the two bytes go out all the same. *)
Lemma flush_failures_do_not_abort_witness :
  snd (env_flushOutput Bench.env 0%nat
         (world (Bench.without_flush Bench.connected))) =
    Raise SerialException /\
  fst (send_bytes Bench.env (PyBytes [Byte.x35; Byte.x2e])
         (Bench.without_flush Bench.connected)) = Ok true /\
  Bench.tx_sent
    (world (snd (send_bytes Bench.env (PyBytes [Byte.x35; Byte.x2e])
                   (Bench.without_flush Bench.connected)))) =
    [Byte.x35; Byte.x2e].
Proof.
  split; [reflexivity|].
  destruct (flush_failures_do_not_abort Bench.env
              (Bench.without_flush Bench.connected))
    as [_ [_ [_ [_ Hsend]]]].
  destruct (Hsend 0%nat (world (Bench.without_flush Bench.connected))
              SerialException (PyBytes [Byte.x35; Byte.x2e])
              (Bench.set_tx_sent [Byte.x35; Byte.x2e]
                 (world (Bench.without_flush Bench.connected)))
              (Ok 2) eq_refl eq_refl eq_refl) as [Hr _].
  split; [exact Hr|reflexivity].
Defined.

(** Three bytes wait in the input buffer; no connection object; a closed
    port. *)
Lemma get_unread_bytes_sentinel_witness :
  fst (get_unread_bytes Bench.env
         (Bench.with_reply [Byte.x35; Byte.x2e; Byte.xf8] Bench.connected)) =
    Ok 3 /\
  fst (get_unread_bytes Bench.env Bench.constructed) = Ok (-1) /\
  (env_is_open Bench.env 0%nat (world Bench.disconnected) = false /\
   fst (get_unread_bytes Bench.env Bench.disconnected) = Ok (-1)).
Proof.
  split; [|split; [|split]].
  - destruct (get_unread_bytes_sentinel Bench.env
                (Bench.with_reply [Byte.x35; Byte.x2e; Byte.xf8]
                   Bench.connected)) as [_ [_ [_ [Hok _]]]].
    rewrite (Hok 0%nat
               (world (Bench.with_reply [Byte.x35; Byte.x2e; Byte.xf8]
                         Bench.connected)) 3 eq_refl eq_refl).
    reflexivity.
  - rewrite (proj1 (proj2 (get_unread_bytes_sentinel Bench.env
                             Bench.constructed)) eq_refl).
    reflexivity.
  - reflexivity.
  - apply (proj2 (proj2 (proj2 (proj2 (get_unread_bytes_sentinel Bench.env
             Bench.disconnected)))) 0%nat bench_closed_port_raises);
      reflexivity.
Defined.

(** The ports are listed, a connection is opened, used and closed, the
    adapters disappear from the system: the list is the one of the
    constructor. *)
Lemma getAvailablePorts_snapshot_witness :
  __init__ Bench.env (Bench.boot Bench.lab) = (Ok tt, Bench.constructed) /\
  exists r,
    fst (@getAvailablePorts Bench.rig Bench.constructed) = Ok r /\
    fst (@getAvailablePorts Bench.rig
           (Bench.unplug
              (run_calls Bench.env
                 [Open_conn (PyStr "COM3"); Send_bytes (PyBytes [Byte.x35]);
                  Read_bytes (PyInt 4); Close_conn]
                 Bench.constructed))) = Ok r /\
    heap (Bench.unplug
            (run_calls Bench.env
               [Open_conn (PyStr "COM3"); Send_bytes (PyBytes [Byte.x35]);
                Read_bytes (PyInt 4); Close_conn]
               Bench.constructed)) r = ["COM3"; "COM7"].
Proof.
  split; [reflexivity|].
  destruct (getAvailablePorts_snapshot Bench.env (Bench.boot Bench.lab)
              (s1 := Bench.constructed) eq_refl) as [r [ports [Hports Hget]]].
  injection Hports as <-.
  exists r. split; [|split].
  - exact (f_equal fst (proj1 (Hget [] (world Bench.constructed)))).
  - exact (f_equal fst (proj1
      (Hget [Open_conn (PyStr "COM3"); Send_bytes (PyBytes [Byte.x35]);
             Read_bytes (PyInt 4); Close_conn]
            (world (Bench.unplug
              (run_calls Bench.env
                 [Open_conn (PyStr "COM3"); Send_bytes (PyBytes [Byte.x35]);
                  Read_bytes (PyInt 4); Close_conn]
                 Bench.constructed)))))).
  - exact (proj2
      (Hget [Open_conn (PyStr "COM3"); Send_bytes (PyBytes [Byte.x35]);
             Read_bytes (PyInt 4); Close_conn]
            (world (Bench.unplug
              (run_calls Bench.env
                 [Open_conn (PyStr "COM3"); Send_bytes (PyBytes [Byte.x35]);
                  Read_bytes (PyInt 4); Close_conn]
                 Bench.constructed))))).
Defined.

(** What the driver hands out is its own list, not a copy: a caller that
    appends to the list it received changes what the next call shows.  The
    driver itself never does so. *)
Remark returned_list_is_shared :
  forall r s',
    @getAvailablePorts Bench.rig Bench.constructed = (Ok r, s') ->
    fst (@getAvailablePorts Bench.rig
           (snd (list_append r "COM9" s'))) = Ok r /\
    heap (snd (list_append (W := Bench.rig) r "COM9" s')) r =
      ["COM3"; "COM7"; "COM9"].
Proof.
  intros r s' H. vm_compute in H. injection H as <- <-.
  split; reflexivity.
Qed.

(** * The Session serialises the exchanges *)

Module SessionFacts.
Import Session.

Lemma nth_error_owned (t : nat) (ops : list transport_op) :
  forall n b y, nth_error (map (pair t) ops) n = Some (b, y) -> b = t.
Proof.
  intros n b y H. apply nth_error_In in H. apply in_map_iff in H.
  destruct H as [op [Heq _]]. congruence.
Qed.

Lemma set_stage_same (t : nat) (g : stage) (f : nat -> stage) :
  set_stage t g f t = g.
Proof. unfold set_stage. rewrite Nat.eqb_refl. reflexivity. Qed.

Lemma set_stage_other (t u : nat) (g : stage) (f : nat -> stage) :
  u <> t -> set_stage t g f u = f u.
Proof.
  intro H. unfold set_stage. apply Nat.eqb_neq in H. rewrite H. reflexivity.
Qed.

Lemma advance_invariant (st : state) (t : nat) (h : option nat) (g : stage)
    (ops : list transport_op) :
  admissible st t h g ops ->
  invariant st -> invariant (advance st t h g ops).
Proof.
  intros [Hlive Hcalls Henter Hholder] [Hhold [Hown Hser]].
  assert (Hnew : forall n b y,
            nth_error (wire st ++ map (pair t) ops) n = Some (b, y) ->
            (List.length (wire st) <= n)%nat ->
            b = t /\ on_wire (stage_of st t) = true).
  { intros n b y Hn Hlen. rewrite nth_error_app2 in Hn by exact Hlen.
    split; [eapply nth_error_owned; exact Hn|].
    apply Hcalls. intros ->. destruct (n - List.length (wire st))%nat; discriminate. }
  split; [|split].
  - (* the holder *)
    intros u Hu. simpl in *. destruct (Nat.eq_dec u t) as [->|Hne].
    + rewrite set_stage_same in Hu. auto.
    + rewrite set_stage_other in Hu by exact Hne.
      pose proof (Hhold u Hu) as Hu'.
      destruct Hholder as [->|[[Hnone _]|[Hon _]]]; [exact Hu'|congruence|].
      pose proof (Hhold t Hon). congruence.
  - (* the owners *)
    intros i a x Hi. simpl in *.
    assert (Hlater : holder st = Some a ->
              h = holder st ->
              (forall j b y, (i < j)%nat ->
                 nth_error (wire st) j = Some (b, y) -> b = a) ->
              forall j b y, (i < j)%nat ->
                nth_error (wire st ++ map (pair t) ops) j = Some (b, y) ->
                b = a).
    { intros Ha Hh Hold j b y Hij Hj.
      destruct (Nat.lt_ge_cases j (List.length (wire st))) as [Hlt|Hge].
      - rewrite nth_error_app1 in Hj by exact Hlt. eapply Hold; eauto.
      - destruct (Hnew j b y Hj Hge) as [-> Hon].
        pose proof (Hhold t Hon). congruence. }
    destruct (Nat.lt_ge_cases i (List.length (wire st))) as [Hlt|Hge].
    + rewrite nth_error_app1 in Hi by exact Hlt.
      destruct (Hown i a x Hi) as [Hres|[Ha Hafter]].
      * left. destruct (Nat.eq_dec a t) as [->|Hne]; [congruence|].
        rewrite set_stage_other by exact Hne. exact Hres.
      * destruct Hholder as [Hh|[[Hnone _]|[Hon [_ Hres]]]];
          [|congruence|].
        -- right. split; [congruence|]. apply Hlater; assumption.
        -- left. pose proof (Hhold t Hon) as Ht.
           assert (a = t) by congruence. subst a.
           rewrite set_stage_same. exact Hres.
    + destruct (Hnew i a x Hi Hge) as [-> Hon].
      pose proof (Hhold t Hon) as Ht.
      destruct Hholder as [Hh|[[Hnone _]|[_ [_ Hres]]]]; [|congruence|].
      * right. split; [congruence|].
        intros j b y Hij Hj. eapply Hnew; [exact Hj|].
        apply Nat.le_trans with i; [exact Hge|apply Nat.lt_le_incl; exact Hij].
      * left. rewrite set_stage_same. exact Hres.
  - (* no interleaving *)
    intros i j k a b x y z Hij Hjk Hi Hj Hk. simpl in *.
    destruct (Nat.lt_ge_cases k (List.length (wire st))) as [Hk_old|Hk_new].
    + assert (Hj_old : (j < List.length (wire st))%nat)
        by (eapply Nat.lt_trans; eassumption).
      assert (Hi_old : (i < List.length (wire st))%nat)
        by (eapply Nat.lt_trans; eassumption).
      rewrite nth_error_app1 in Hi, Hj, Hk by assumption.
      eapply Hser; [exact Hij|exact Hjk|exact Hi|exact Hj|exact Hk].
    + destruct (Hnew k a z Hk Hk_new) as [-> Hon].
      destruct (Nat.lt_ge_cases j (List.length (wire st))) as [Hj_old|Hj_new].
      * assert (Hi_old : (i < List.length (wire st))%nat)
          by (eapply Nat.lt_trans; eassumption).
        rewrite nth_error_app1 in Hi, Hj by assumption.
        destruct (Hown i t x Hi) as [Hres|[_ Hafter]]; [congruence|].
        eapply Hafter; [exact Hij|exact Hj].
      * eapply Hnew; [exact Hj|exact Hj_new].
Qed.

Lemma init_invariant (l : connection) : invariant (init l).
Proof.
  split; [|split].
  - intros t Ht. discriminate.
  - intros i a x Hi. destruct i; discriminate.
  - intros i j k a b x y z _ _ Hi. destruct i; discriminate.
Qed.

Lemma step_invariant (rdf : bool) (t : nat) (ok : bool) (st : state) :
  invariant st -> invariant (step rdf t ok st).
Proof.
  intro Hinv. pose proof Hinv as [Hhold _]. unfold step.
  destruct (stage_of st t) eqn:Hst;
    try exact Hinv;
    try (assert (Ht : holder st = Some t)
           by (apply Hhold; rewrite Hst; reflexivity));
    repeat match goal with
    | |- invariant (match ?x with _ => _ end) => destruct x eqn:?
    | |- invariant (if ?x then _ else _) => destruct x eqn:?
    end;
    try exact Hinv;
    (apply advance_invariant;
     [constructor; rewrite ?Hst; simpl; auto; try discriminate; try congruence;
      try (intro Habs; exfalso; apply Habs; reflexivity)
     | exact Hinv]).
Qed.

Lemma run_invariant (rdf : bool) (sched : list (nat * bool)) :
  forall st, invariant st -> invariant (run rdf sched st).
Proof.
  induction sched as [|[t ok] rest IH]; intros st Hinv; simpl.
  - exact Hinv.
  - apply IH. apply step_invariant. exact Hinv.
Qed.

End SessionFacts.

(** C9: however many Commands are submitted and however the workers are
    scheduled, in every state the Session reaches at most one task is in
    flight, and the calls the Transport has seen are not interleaved: between
    two calls of one Command there is no call of another.  The Session is
    the one written from section 4.3 of the specification, under both
    readings of its step (6). *)
Theorem session_serializes_exchanges
    (release_on_decode_failure : bool) (l : Session.connection)
    (sched : list (nat * bool)) :
  let st := Session.run release_on_decode_failure sched (Session.init l) in
  (forall t u,
     Session.on_wire (Session.stage_of st t) = true ->
     Session.on_wire (Session.stage_of st u) = true ->
     t = u) /\
  Session.not_interleaved (Session.wire st).
Proof.
  intro st.
  destruct (SessionFacts.run_invariant release_on_decode_failure sched
              (SessionFacts.init_invariant l)) as [Hhold [_ Hser]].
  fold st in Hhold, Hser. split; [|exact Hser].
  intros t u Ht Hu. pose proof (Hhold t Ht). pose proof (Hhold u Hu).
  congruence.
Qed.

(** Two Commands at once: the Transport sees the whole exchange of task 0
    before the first call of task 1, and while task 1 is in flight nobody
    else is. *)
Lemma session_serializes_exchanges_witness :
  Session.wire (Session.run true Session.two_commands (Session.init Session.Open)) =
    [(0, Session.Op_flushOutbound); (0, Session.Op_flushInbound);
     (0, Session.Op_send); (0, Session.Op_receive);
     (1, Session.Op_flushOutbound)]%nat /\
  Session.stage_of
    (Session.run true Session.two_commands (Session.init Session.Open)) 1%nat =
    Session.FlushInbound /\
  forall u,
    Session.on_wire
      (Session.stage_of
         (Session.run true Session.two_commands (Session.init Session.Open)) u) =
      true ->
    u = 1%nat.
Proof.
  split; [reflexivity|]. split; [reflexivity|].
  intros u Hu.
  apply (proj1 (session_serializes_exchanges true Session.Open Session.two_commands)
           u 1%nat Hu).
  reflexivity.
Defined.

(** * Further properties of the driver *)

Section DriverExtras.

Variable W : Type.
Variable E : SerialEnv W.

(** *** The constructor *)

(** The loop of the constructor changes one list object and no other. *)
Lemma append_devices_frame (ports : list ListPortInfo) :
  forall (s : Sys W) (r : list_ref),
    comm_ports_list (self s) = Some r ->
    forall r', r' <> r ->
      heap (snd (@append_devices W ports s)) r' = heap s r'.
Proof.
  induction ports as [|p ports IH]; intros s r Hr r' Hne; simpl.
  - reflexivity.
  - unfold bind at 1, get_comm_ports_list. rewrite Hr.
    unfold bind at 1, list_append.
    rewrite (IH _ r); [|simpl; exact Hr|exact Hne].
    simpl. apply Nat.eqb_neq in Hne. rewrite Hne. reflexivity.
Qed.

(** X1: the constructor enumerates the ports exactly once and is the one
    method without a handler.  When the enumeration raises, the exception
    reaches the caller and the object is left without a port list.  When it
    returns, the attribute refers to a list object created by this call,
    holding the device name of every enumerated port in enumeration order;
    no list object that existed before is modified, the connection
    attribute is not touched and nothing is printed. *)
Theorem init_enumerates_once (s0 : Sys W) :
  (forall w' e,
     env_comports E (world s0) = (w', Raise e) ->
     __init__ E s0 = (Raise e, moved w' Call_comports s0)) /\
  (forall w' ports,
     env_comports E (world s0) = (w', Ok ports) ->
     exists s1,
       __init__ E s0 = (Ok tt, s1) /\
       comm_ports_list (self s1) = Some (fresh s0) /\
       conn (self s1) = conn (self s0) /\
       heap s1 (fresh s0) = map device ports /\
       (forall r, r <> fresh s0 -> heap s1 r = heap s0 r) /\
       world s1 = w' /\
       trace s1 = (trace s0 ++ [Call_comports])%list /\
       stdout s1 = stdout s0).
Proof.
  split.
  - intros w' e Hcom. unfold __init__, bind at 1, sp_comports, lib.
    rewrite Hcom. reflexivity.
  - intros w' ports Hcom.
    unfold __init__, bind at 1, sp_comports, lib. rewrite Hcom.
    unfold bind at 1, new_list. unfold bind at 1, set_comm_ports_list.
    match goal with
    | |- exists s1, append_devices ports ?s = _ /\ _ => set (sa := s)
    end.
    assert (Hr : comm_ports_list (self sa) = Some (fresh s0)) by reflexivity.
    destruct (append_devices_ok ports sa Hr)
      as [s1 [H [Hself [Hheap [Hw [Ht Ho]]]]]].
    pose proof (append_devices_frame ports sa Hr) as Hframe.
    rewrite H in Hframe. simpl in Hframe.
    exists s1. split; [exact H|].
    rewrite Hself, Hheap, Hw, Ht, Ho. simpl. rewrite Nat.eqb_refl.
    repeat split; try reflexivity.
    intros r Hne. rewrite (Hframe r Hne). simpl.
    apply Nat.eqb_neq in Hne. rewrite Hne. reflexivity.
Qed.

(** *** The connection attribute *)

Lemma invoke_unopened (m : method_call) (s : Sys W) :
  conn (self s) = None ->
  is_open_conn m = false ->
  trace (snd (invoke E m s)) = trace s /\
  world (snd (invoke E m s)) = world s /\
  self (snd (invoke E m s)) = self s.
Proof.
  intros Hc Hm.
  destruct m; try discriminate; unfold invoke, fmap, bind, ret.
  - unfold getAvailablePorts, get_comm_ports_list.
    destruct (comm_ports_list (self s)); simpl; auto.
  - rewrite close_conn_eq, Hc. simpl. auto.
  - rewrite clear_tx_buffer_eq, Hc. simpl. auto.
  - rewrite clear_rx_buffer_eq, Hc. simpl. auto.
  - rewrite send_bytes_eq, clear_tx_buffer_eq, Hc. simpl. rewrite Hc.
    simpl. auto.
  - rewrite read_bytes_eq, Hc. simpl. auto.
  - rewrite get_unread_bytes_eq, Hc. simpl. auto.
Qed.

(** X2: a driver that holds no connection object stays clear of the
    library: whatever calls other than [open_conn] are made on it, and in
    whatever order, no call reaches the serial library, the world is what
    it was and there is still no connection object. *)
Theorem unopened_driver_never_calls_library
    (ms : list method_call) (s : Sys W) :
  conn (self s) = None ->
  forallb (fun m => negb (is_open_conn m)) ms = true ->
  trace (run_calls E ms s) = trace s /\
  world (run_calls E ms s) = world s /\
  conn (self (run_calls E ms s)) = None.
Proof.
  revert s. induction ms as [|m ms IH]; intros s Hc Hms; simpl.
  - auto.
  - simpl in Hms. apply andb_true_iff in Hms. destruct Hms as [Hm Hms].
    apply negb_true_iff in Hm.
    destruct (invoke_unopened m s Hc Hm) as [Ht [Hw Hs]].
    destruct (IH (snd (invoke E m s))) as [IHt [IHw IHc]];
      [rewrite Hs; exact Hc|exact Hms|].
    rewrite IHt, IHw, IHc, Ht, Hw. auto.
Qed.

Lemma invoke_conn (m : method_call) (s : Sys W) :
  conn (self (snd (invoke E m s))) = conn (self s) \/
  (is_open_conn m = true /\
   exists c, conn (self (snd (invoke E m s))) = Some c).
Proof.
  destruct m; unfold invoke, fmap, bind, ret.
  - left. unfold getAvailablePorts, get_comm_ports_list.
    destruct (comm_ports_list (self s)); reflexivity.
  - rewrite open_conn_eq. cbv zeta.
    destruct (env_Serial E port 115200 PARITY_NONE STOPBITS_ONE EIGHTBITS
                0.2%Q (world s)) as [w' [c|e]].
    + right. split; [reflexivity|]. exists c. reflexivity.
    + left. destruct (str_add _ port); reflexivity.
  - left. destruct (close_conn_self E s) as [s' [H [Hs _]]]. rewrite H.
    simpl. congruence.
  - left. destruct (clear_tx_buffer_self E s) as [s' [H [Hs _]]]. rewrite H.
    simpl. congruence.
  - left. destruct (clear_rx_buffer_self E s) as [s' [H [Hs _]]]. rewrite H.
    simpl. congruence.
  - left. destruct (send_bytes_self E tx_buffer s) as [b [s' [H [Hs _]]]].
    rewrite H. simpl. congruence.
  - left. destruct (read_bytes_self E rx_len s) as [p [s' [H [Hs _]]]].
    rewrite H. simpl. congruence.
  - left. destruct (get_unread_bytes_self E s) as [z [s' [H [Hs _]]]].
    rewrite H. simpl. congruence.
Qed.

(** X3: once a connection object is stored, no method ever removes it:
    after any sequence of calls, [close_conn] among them, the attribute
    still holds a connection object, and it is the same object unless
    [open_conn] was called. *)
Theorem conn_never_cleared (ms : list method_call) (s : Sys W) (c : Serial) :
  conn (self s) = Some c ->
  exists c',
    conn (self (run_calls E ms s)) = Some c' /\
    (forallb (fun m => negb (is_open_conn m)) ms = true -> c' = c).
Proof.
  revert s c. induction ms as [|m ms IH]; intros s c Hc; simpl.
  - exists c. auto.
  - destruct (invoke_conn m s) as [Hsame|[Hopen [c1 Hc1]]].
    + destruct (IH (snd (invoke E m s)) c) as [c' [Hc' Hkeep]];
        [congruence|].
      exists c'. split; [exact Hc'|].
      intro Hms. apply andb_true_iff in Hms. apply Hkeep. tauto.
    + destruct (IH (snd (invoke E m s)) c1 Hc1) as [c' [Hc' _]].
      exists c'. split; [exact Hc'|].
      rewrite Hopen. simpl. discriminate.
Qed.

(** *** Closing and reopening *)



(** X5: on a driver that holds no connection object, [open_conn] reports
    success as soon as the [Serial] object was built, for any port value,
    whether or not the library opened a port for it.  It prints nothing and
    stores the new object, and the read that follows is issued on that
    object, in the world the construction left. *)
Theorem open_conn_success_stores_object
    (port rx_len : pyval) (s : Sys W) (w' : W) (c : Serial) :
  conn (self s) = None ->
  env_Serial E port 115200 PARITY_NONE STOPBITS_ONE EIGHTBITS 0.2%Q
    (world s) = (w', Ok c) ->
  open_conn E port s =
    (Ok true,
     set_self {| comm_ports_list := comm_ports_list (self s);
                 conn := Some c |}
       (moved w' (Call_Serial port 115200 PARITY_NONE STOPBITS_ONE EIGHTBITS
                    0.2%Q) s)) /\
  trace (snd (read_bytes E rx_len (snd (open_conn E port s)))) =
    (trace s ++
     [Call_Serial port 115200 PARITY_NONE STOPBITS_ONE EIGHTBITS 0.2%Q;
      Call_read c rx_len])%list /\
  world (snd (read_bytes E rx_len (snd (open_conn E port s)))) =
    fst (env_read E c rx_len w') /\
  fst (read_bytes E rx_len (snd (open_conn E port s))) =
    match snd (env_read E c rx_len w') with
    | Ok raw => Ok (true, map byte_to_int raw)
    | Raise _ => Ok (false, [])
    end.
Proof.
  intros _ H. rewrite open_conn_eq. cbv zeta. rewrite H. simpl.
  split; [reflexivity|].
  rewrite read_bytes_eq. simpl.
  destruct (env_read E c rx_len w') as [w2 [raw|e]]; simpl;
    rewrite <- app_assoc; repeat split; reflexivity.
Qed.

(** X6: the handler of [open_conn] builds its message by concatenating the
    port to a [str].  When the construction of the [Serial] object raises
    for a port that is not a [str], the handler itself raises [TypeError]:
    the exception reaches the caller, nothing is printed and the driver is
    unchanged. *)
Theorem open_conn_non_str_port_raises
    (port : pyval) (s : Sys W) (w' : W) (e : exn) :
  is_str port = false ->
  env_Serial E port 115200 PARITY_NONE STOPBITS_ONE EIGHTBITS 0.2%Q
    (world s) = (w', Raise e) ->
  open_conn E port s =
    (Raise TypeError,
     moved w' (Call_Serial port 115200 PARITY_NONE STOPBITS_ONE EIGHTBITS
                 0.2%Q) s).
Proof.
  intros Hport H. rewrite open_conn_eq. cbv zeta. rewrite H.
  destruct port; try discriminate; reflexivity.
Qed.

(** *** What [read_bytes] hands back *)

Lemma byte_to_int_range (b : Byte.byte) : 0 <= byte_to_int b <= 255.
Proof.
  unfold byte_to_int. pose proof (Byte.to_N_bounded b). lia.
Qed.

Lemma int_to_byte_to_int (b : Byte.byte) :
  int_to_byte (byte_to_int b) = Some b.
Proof.
  unfold int_to_byte, byte_to_int. rewrite N2Z.id. apply Byte.of_to_N.
Qed.

(** X7: the list [read_bytes] returns holds one integer per byte the
    library handed over, in the same order, each between 0 and 255, and the
    bytes can be rebuilt from it; with the failure status the list is
    always empty. *)
Theorem read_bytes_payload
    (rx_len : pyval) (s s' : Sys W) (rx_stat : bool) (rx_buf : list Z) :
  read_bytes E rx_len s = (Ok (rx_stat, rx_buf), s') ->
  Forall (fun z => 0 <= z <= 255) rx_buf /\
  (rx_stat = false -> rx_buf = []) /\
  (rx_stat = true ->
   exists c raw,
     conn (self s) = Some c /\
     snd (env_read E c rx_len (world s)) = Ok raw /\
     List.length rx_buf = List.length raw /\
     map int_to_byte rx_buf = map Some raw).
Proof.
  rewrite read_bytes_eq.
  destruct (conn (self s)) as [c|].
  - destruct (env_read E c rx_len (world s)) as [w' [raw|e]] eqn:Hr;
      intro H; inversion H; subst.
    + split; [|split].
      * apply Forall_forall. intros z Hz. apply in_map_iff in Hz.
        destruct Hz as [b [<- _]]. apply byte_to_int_range.
      * discriminate.
      * intros _. exists c, raw. split; [reflexivity|].
        split; [rewrite Hr; reflexivity|].
        split; [apply length_map|].
        rewrite map_map. apply map_ext. exact int_to_byte_to_int.
    + split; [constructor|]. split; [reflexivity|discriminate].
  - intro H; inversion H; subst.
    split; [constructor|]. split; [reflexivity|discriminate].
Qed.

(** *** What is printed *)

(** X8: the driver prints nothing but error messages.  Whatever the call
    and its outcome, the output only grows, every message handed to [print]
    starts with [UART ERROR: ], and [read_bytes] and [getAvailablePorts]
    never print: a failed read is not reported on the output. *)
Theorem printed_messages_are_errors (m : method_call) (s : Sys W) :
  exists msgs,
    stdout (snd (invoke E m s)) = (stdout s ++ msgs)%list /\
    Forall (fun l => error_message l = true) msgs /\
    match m with
    | Read_bytes _ | GetAvailablePorts => msgs = []
    | _ => True
    end.
Proof.
  assert (Htx : forall s0 : Sys W, exists msgs,
            stdout (snd (clear_tx_buffer E s0)) = (stdout s0 ++ msgs)%list /\
            Forall (fun l => error_message l = true) msgs).
  { intro s0. rewrite clear_tx_buffer_eq.
    destruct (conn (self s0)) as [c|].
    - destruct (env_flushOutput E c (world s0)) as [w' [v|e]]; simpl.
      + exists []. rewrite app_nil_r. auto.
      + eexists. split; [reflexivity|]. repeat constructor.
    - eexists. split; [reflexivity|]. repeat constructor. }
  destruct m; unfold invoke, fmap, bind, ret.
  - exists []. unfold getAvailablePorts, get_comm_ports_list.
    destruct (comm_ports_list (self s)); simpl; rewrite app_nil_r; auto.
  - rewrite open_conn_eq. cbv zeta.
    destruct (env_Serial E port 115200 PARITY_NONE STOPBITS_ONE EIGHTBITS
                0.2%Q (world s)) as [w' [c|e]]; simpl.
    + exists []. rewrite app_nil_r. auto.
    + destruct port; simpl;
        try (exists []; rewrite app_nil_r; auto; fail).
      eexists. split; [reflexivity|]. split; [|exact I].
      repeat constructor.
  - rewrite close_conn_eq.
    destruct (conn (self s)) as [c|].
    + destruct (env_close E c (world s)) as [w' [v|e]]; simpl.
      * exists []. rewrite app_nil_r. auto.
      * eexists. split; [reflexivity|]. repeat constructor.
    + eexists. split; [reflexivity|]. repeat constructor.
  - destruct (Htx s) as [msgs [Hl Hf]].
    destruct (clear_tx_buffer_self E s) as [s' [H _]].
    rewrite H in *. simpl in *. exists msgs. auto.
  - rewrite clear_rx_buffer_eq.
    destruct (conn (self s)) as [c|].
    + destruct (env_flushInput E c (world s)) as [w' [v|e]]; simpl.
      * exists []. rewrite app_nil_r. auto.
      * eexists. split; [reflexivity|]. repeat constructor.
    + eexists. split; [reflexivity|]. repeat constructor.
  - rewrite send_bytes_eq.
    destruct (Htx s) as [l1 [Hl1 Hf1]].
    destruct (clear_tx_buffer_self E s) as [s1 [H1 _]].
    rewrite H1 in *. simpl in Hl1.
    destruct (conn (self s1)) as [c|]; [|simpl; exists l1; auto].
    destruct (env_write E c tx_buffer (world s1)) as [w2 [k|e]].
    + destruct (Htx (moved w2 (Call_write c tx_buffer) s1))
        as [l2 [Hl2 Hf2]].
      destruct (clear_tx_buffer_self E (moved w2 (Call_write c tx_buffer) s1))
        as [s3 [H3 _]].
      rewrite H3 in *. simpl in *. exists (l1 ++ l2)%list.
      rewrite Hl2, Hl1, app_assoc. split; [reflexivity|].
      split; [apply Forall_app; auto|exact I].
    + simpl. exists l1. auto.
  - exists []. rewrite read_bytes_eq.
    destruct (conn (self s)) as [c|];
      [destruct (env_read E c rx_len (world s)) as [w' [raw|e]]|];
      simpl; rewrite app_nil_r; auto.
  - rewrite get_unread_bytes_eq. cbv zeta.
    destruct (conn (self s)) as [c|].
    + destruct (env_inWaiting E c (world s)) as [w' [n|e]]; simpl.
      * exists []. rewrite app_nil_r. auto.
      * eexists. split; [reflexivity|]. repeat constructor.
    + eexists. split; [reflexivity|]. repeat constructor.
Qed.

End DriverExtras.

(** * The further properties on the bench *)

(** The constructor on the bench machine: two adapters, two names. *)
Lemma init_enumerates_once_witness :
  env_comports Bench.env (world (Bench.boot Bench.lab)) =
    (Bench.lab, Ok [mkPortInfo "COM3" "n/a" "n/a";
                    mkPortInfo "COM7" "n/a" "n/a"]) /\
  exists s1,
    __init__ Bench.env (Bench.boot Bench.lab) = (Ok tt, s1) /\
    comm_ports_list (self s1) = Some 0%nat /\
    heap s1 0%nat = ["COM3"; "COM7"].
Proof.
  split; [reflexivity|].
  destruct (proj2 (init_enumerates_once Bench.env (Bench.boot Bench.lab))
              Bench.lab
              [mkPortInfo "COM3" "n/a" "n/a"; mkPortInfo "COM7" "n/a" "n/a"]
              eq_refl)
    as [s1 [H [Hp [_ [Hh _]]]]].
  exists s1. split; [exact H|]. split; [exact Hp|exact Hh].
Defined.

(** A driver that was constructed and never opened a port. *)
Lemma unopened_driver_never_calls_library_witness :
  conn (self Bench.constructed) = None /\
  trace (run_calls Bench.env
           [Send_bytes (PyBytes [Byte.x35]); Read_bytes (PyInt 4);
            Get_unread_bytes; Clear_rx_buffer; Close_conn]
           Bench.constructed) = [Call_comports].
Proof.
  split; [reflexivity|].
  rewrite (proj1 (unopened_driver_never_calls_library Bench.env
             [Send_bytes (PyBytes [Byte.x35]); Read_bytes (PyInt 4);
              Get_unread_bytes; Clear_rx_buffer; Close_conn]
             Bench.constructed eq_refl eq_refl)).
  reflexivity.
Defined.

(** The connection is closed and flushed: the attribute still holds the
    object. *)
Lemma conn_never_cleared_witness :
  conn (self Bench.connected) = Some 0%nat /\
  conn (self (run_calls Bench.env [Close_conn; Clear_tx_buffer; Close_conn]
                Bench.connected)) = Some 0%nat.
Proof.
  split; [reflexivity|].
  destruct (conn_never_cleared Bench.env
              [Close_conn; Clear_tx_buffer; Close_conn]
              Bench.connected (c := 0%nat) eq_refl) as [c' [Hc' Hsame]].
  rewrite Hc'. f_equal. apply Hsame. reflexivity.
Defined.


(** [open_conn(None)]: pyserial builds the object without opening a port;
    the driver reports success, and the send that follows fails. *)
Lemma open_conn_success_stores_object_witness :
  conn (self Bench.constructed) = None /\
  fst (open_conn Bench.env PyNone Bench.constructed) = Ok true /\
  conn (self (snd (open_conn Bench.env PyNone Bench.constructed))) =
    Some 0%nat /\
  env_is_open Bench.env 0%nat
    (world (snd (open_conn Bench.env PyNone Bench.constructed))) = false /\
  fst (send_bytes Bench.env (PyBytes [Byte.x35])
         (snd (open_conn Bench.env PyNone Bench.constructed))) = Ok false.
Proof.
  split; [reflexivity|].
  destruct (open_conn_success_stores_object Bench.env PyNone (PyInt 4)
              Bench.constructed
              (w' := Bench.set_opened [] 1%nat (world Bench.constructed))
              (c := 0%nat) eq_refl eq_refl) as [Heq _].
  rewrite Heq. repeat split; reflexivity.
Defined.

(** [open_conn(5)]. *)
Lemma open_conn_non_str_port_raises_witness :
  fst (open_conn Bench.env (PyInt 5) Bench.constructed) = Raise TypeError /\
  stdout (snd (open_conn Bench.env (PyInt 5) Bench.constructed)) = [].
Proof.
  rewrite (open_conn_non_str_port_raises Bench.env (PyInt 5)
             Bench.constructed (w' := world Bench.constructed)
             (e := ValueError) eq_refl eq_refl).
  split; reflexivity.
Defined.

(** Two bytes of a reply. *)
Lemma read_bytes_payload_witness :
  exists s',
    read_bytes Bench.env (PyInt 4)
      (Bench.with_reply [Byte.x35; Byte.xf8] Bench.connected) =
      (Ok (true, [53; 248]), s') /\
    Forall (fun z => 0 <= z <= 255) [53; 248] /\
    map int_to_byte [53; 248] = map Some [Byte.x35; Byte.xf8].
Proof.
  eexists. split; [reflexivity|].
  destruct (read_bytes_payload Bench.env (PyInt 4)
              (Bench.with_reply [Byte.x35; Byte.xf8] Bench.connected)
              eq_refl) as [Hrange [_ Hraw]].
  split; [exact Hrange|].
  destruct (Hraw eq_refl) as [c [raw [Hc [Hread [_ Hmap]]]]].
  vm_compute in Hc. injection Hc as <-.
  vm_compute in Hread. injection Hread as <-. exact Hmap.
Defined.
